(** * gwda: the WebDriverAgent session client (session.go)

    A shallow embedding of the session methods of [session.go] and of the
    library calls they make ([encoding/base64], [encoding/json], the gjson
    accessors of the response value, [os] and [io/ioutil]), followed by the
    properties of the client that the specification states.

    Go values are modelled as follows.
    - A Go [string] and a [[]byte] are byte sequences: [string] (a list of
      8-bit [ascii]) and [list ascii].
    - A Go [int] is a [Z]; unsigned arithmetic on [uint] is written with
      [Z.shiftl], [Z.shiftr], [Z.lor] and [Z.land].
    - A Go [error] is [option Err], with [None] for [nil].
    - A function with results [(v, err)] returns the pair; nothing is hidden
      in a sum, because the methods of this file return a filled struct and
      an error together.
    - The [map[string]interface{}] request body is a [gmap string Value].
    - Calls that reach the outside (HTTP transport, file system) thread an
      explicit [World]. *)

From Stdlib Require Import ZArith List String Ascii Lia.
From stdpp Require Import base option list gmap strings.

Set Warnings "-register-all".

Local Open Scope string_scope.
Local Open Scope list_scope.
Local Open Scope Z_scope.

(** ** Bytes *)

Definition byte := ascii.

(** [uint(b)] of a byte. *)
Definition uint (b : byte) : Z := Z.of_N (N_of_ascii b).

(** [byte(v)]: conversion of an unsigned integer to a byte keeps the low
    eight bits. *)
Definition byte_of (v : Z) : byte := ascii_of_N (Z.to_N (Z.land v 255)).

(** [[]byte(s)] and [string(b)]. *)
Definition bytes (s : string) : list byte := list_ascii_of_string s.
Definition string_of (b : list byte) : string := string_of_list_ascii b.

(** [dq s] is [s] with every apostrophe replaced by a double quote; JSON
    texts below are written with it. *)
Definition dq (s : string) : string :=
  string_of (map (fun c => if Ascii.eqb c "'"%char then "034"%char else c) (bytes s)).

(** A value of Go's [int64] after overflow. *)
Definition wrap64 (z : Z) : Z := (z + 2 ^ 63) mod 2 ^ 64 - 2 ^ 63.

(** ** encoding/base64 *)

Module base64.

(** An [Encoding] is a 64-character alphabet and a padding character
    ([NoPadding] is [None]). *)
Record Encoding := NewEncoding {
  encode : list byte;
  padChar : option byte
}.

Definition encodeStd : string :=
  "ABCDEFGHIJKLMNOPQRSTUVWXYZabcdefghijklmnopqrstuvwxyz0123456789+/".
Definition encodeURL : string :=
  "ABCDEFGHIJKLMNOPQRSTUVWXYZabcdefghijklmnopqrstuvwxyz0123456789-_".

Definition StdPadding : byte := "="%char.

Definition StdEncoding : Encoding := NewEncoding (bytes encodeStd) (Some StdPadding).
Definition URLEncoding : Encoding := NewEncoding (bytes encodeURL) (Some StdPadding).

(** [enc.encode[i]]; every index the encoder builds is below 64. *)
Definition encode_at (enc : Encoding) (i : Z) : byte :=
  nth (Z.to_nat i) (encode enc) "000"%char.

Definition pad (enc : Encoding) (n : nat) : list byte :=
  match padChar enc with
  | Some p => repeat p n
  | None => []
  end.

(** [Encode]: three source bytes become four characters; the remaining one
    or two bytes become two or three characters and padding. *)
Fixpoint Encode (enc : Encoding) (src : list byte) : list byte :=
  match src with
  | [] => []
  | b0 :: b1 :: b2 :: rest =>
      let val := Z.lor (Z.lor (Z.shiftl (uint b0) 16) (Z.shiftl (uint b1) 8)) (uint b2) in
      encode_at enc (Z.land (Z.shiftr val 18) 63)
      :: encode_at enc (Z.land (Z.shiftr val 12) 63)
      :: encode_at enc (Z.land (Z.shiftr val 6) 63)
      :: encode_at enc (Z.land val 63)
      :: Encode enc rest
  | [b0; b1] =>
      let val := Z.lor (Z.shiftl (uint b0) 16) (Z.shiftl (uint b1) 8) in
      encode_at enc (Z.land (Z.shiftr val 18) 63)
      :: encode_at enc (Z.land (Z.shiftr val 12) 63)
      :: encode_at enc (Z.land (Z.shiftr val 6) 63)
      :: pad enc 1
  | [b0] =>
      let val := Z.shiftl (uint b0) 16 in
      encode_at enc (Z.land (Z.shiftr val 18) 63)
      :: encode_at enc (Z.land (Z.shiftr val 12) 63)
      :: pad enc 2
  end.

Definition EncodeToString (enc : Encoding) (src : list byte) : string :=
  string_of (Encode enc src).

(** [decodeMap]: the index of a character in the alphabet. *)
Fixpoint index_of (c : byte) (l : list byte) (i : Z) : option Z :=
  match l with
  | [] => None
  | x :: l' => if Ascii.eqb x c then Some i else index_of c l' (i + 1)
  end.

Definition decodeMap (enc : Encoding) (c : byte) : option Z :=
  index_of c (encode enc) 0.

Definition is_pad (enc : Encoding) (c : byte) : bool :=
  match padChar enc with
  | Some p => Ascii.eqb p c
  | None => false
  end.

Definition is_newline (c : byte) : bool :=
  Ascii.eqb c "010"%char || Ascii.eqb c "013"%char.

(** The bytes of one quantum of [n] characters whose sextets are packed in
    [val]. *)
Definition quantum_bytes (val : Z) (n : nat) : list byte :=
  take n [byte_of (Z.shiftr val 16); byte_of (Z.shiftr val 8); byte_of val].

(** Decoding of padded input, four characters at a time; padding may only
    close the input. *)
Fixpoint decode_quanta (enc : Encoding) (src : list byte) : option (list byte) :=
  match src with
  | [] => Some []
  | c0 :: c1 :: c2 :: c3 :: rest =>
      s0 ← decodeMap enc c0;
      s1 ← decodeMap enc c1;
      match decodeMap enc c2, decodeMap enc c3 with
      | Some s2, Some s3 =>
          let val := Z.lor (Z.lor (Z.lor (Z.shiftl s0 18) (Z.shiftl s1 12))
                                  (Z.shiftl s2 6)) s3 in
          out ← decode_quanta enc rest;
          Some (quantum_bytes val 3 ++ out)
      | Some s2, None =>
          if is_pad enc c3 && bool_decide (rest = []) then
            let val := Z.lor (Z.lor (Z.shiftl s0 18) (Z.shiftl s1 12)) (Z.shiftl s2 6) in
            Some (quantum_bytes val 2)
          else None
      | None, _ =>
          if is_pad enc c2 && is_pad enc c3 && bool_decide (rest = []) then
            let val := Z.lor (Z.shiftl s0 18) (Z.shiftl s1 12) in
            Some (quantum_bytes val 1)
          else None
      end
  | _ => None
  end.

(** [DecodeString]: carriage returns and line feeds are skipped, the rest
    is decoded quantum by quantum. [None] is a [CorruptInputError]. *)
Definition DecodeString (enc : Encoding) (s : string) : option (list byte) :=
  decode_quanta enc (filter (fun c => is_newline c = false) (bytes s)).

End base64.

(** ** Errors

    The failures a session method can return, by the taxonomy of the
    client. [ErrNoSuchElement] is the package variable of that name; the
    other constructors carry the message of the error value. *)

Inductive Err :=
| TransportError (msg : string)
| ServerError (msg : string)
| DecodeError (msg : string)
| ErrNoSuchElement
| IOError (msg : string).

(** A Go [error]: [None] is [nil]. *)
Definition error := option Err.
Abbreviation nil := (@None Err).

(** ** JSON text

    The syntax of JSON values, shared by the two readers the client uses:
    [encoding/json] ([json.Unmarshal]) and the accessors of the response
    value. Every node keeps the text it was read from. *)

Module jsontext.

Inductive Token :=
| TNull
| TFalse
| TTrue
| TNumber
| TString (str : string).

Inductive Tree :=
| Leaf (raw : string) (tok : Token)
| Arr (raw : string) (elems : list Tree)
| Obj (raw : string) (members : list (string * Tree)).

Definition Raw (t : Tree) : string :=
  match t with
  | Leaf raw _ | Arr raw _ | Obj raw _ => raw
  end.

Definition is_space (c : byte) : bool :=
  Ascii.eqb c " "%char || Ascii.eqb c "009"%char
  || Ascii.eqb c "010"%char || Ascii.eqb c "013"%char.

Fixpoint skip_space (s : list byte) : list byte :=
  match s with
  | c :: r => if is_space c then skip_space r else s
  | [] => []
  end.

(** [strip p s]: the rest of [s] after the literal [p]. *)
Fixpoint strip (p s : list byte) : option (list byte) :=
  match p, s with
  | [], _ => Some s
  | a :: p', b :: s' => if Ascii.eqb a b then strip p' s' else None
  | _ :: _, [] => None
  end.

Definition is_digit (c : byte) : bool :=
  (48 <=? uint c) && (uint c <=? 57).

Fixpoint span_digits (s : list byte) : list byte * list byte :=
  match s with
  | c :: r =>
      if is_digit c then let '(ds, r') := span_digits r in (c :: ds, r')
      else ([], s)
  | [] => ([], [])
  end.

(** One or more digits. *)
Definition scan_digits1 (s : list byte) : option (list byte * list byte) :=
  match span_digits s with
  | ([], _) => None
  | p => Some p
  end.

(** The integer part: [0], or a non-zero digit and more digits. *)
Definition scan_int (s : list byte) : option (list byte * list byte) :=
  match s with
  | c :: r =>
      if Ascii.eqb c "0"%char then Some ([c], r)
      else if is_digit c then let '(ds, r') := span_digits r in Some (c :: ds, r')
      else None
  | [] => None
  end.

Definition scan_frac (s : list byte) : option (list byte * list byte) :=
  match s with
  | c :: r =>
      if Ascii.eqb c "."%char then
        '(ds, r') ← scan_digits1 r; Some (c :: ds, r')
      else Some ([], s)
  | [] => Some ([], s)
  end.

Definition scan_sign (s : list byte) : list byte * list byte :=
  match s with
  | c :: r =>
      if Ascii.eqb c "+"%char || Ascii.eqb c "-"%char then ([c], r) else ([], s)
  | [] => ([], s)
  end.

Definition scan_exp (s : list byte) : option (list byte * list byte) :=
  match s with
  | c :: r =>
      if Ascii.eqb c "e"%char || Ascii.eqb c "E"%char then
        let '(sg, r1) := scan_sign r in
        '(ds, r2) ← scan_digits1 r1; Some (c :: sg ++ ds, r2)
      else Some ([], s)
  | [] => Some ([], s)
  end.

(** A number literal: [-? int frac? exp?]. *)
Definition scan_number (s : list byte) : option (list byte * list byte) :=
  let '(m, s1) := match s with
                  | c :: r => if Ascii.eqb c "-"%char then ([c], r) else ([], s)
                  | [] => ([], s)
                  end in
  '(i, s2) ← scan_int s1;
  '(f, s3) ← scan_frac s2;
  '(e, s4) ← scan_exp s3;
  Some (m ++ i ++ f ++ e, s4).

Definition hex_digit (c : byte) : option Z :=
  let n := uint c in
  if (48 <=? n) && (n <=? 57) then Some (n - 48)
  else if (97 <=? n) && (n <=? 102) then Some (n - 87)
  else if (65 <=? n) && (n <=? 70) then Some (n - 55)
  else None.

Definition hex4 (a b c d : byte) : option Z :=
  x3 ← hex_digit a; x2 ← hex_digit b; x1 ← hex_digit c; x0 ← hex_digit d;
  Some (Z.lor (Z.lor (Z.lor (Z.shiftl x3 12) (Z.shiftl x2 8)) (Z.shiftl x1 4)) x0).

(** UTF-8 encoding of a code point. *)
Definition utf8 (r : Z) : list byte :=
  if r <? 128 then [byte_of r]
  else if r <? 2048 then
    [byte_of (Z.lor 192 (Z.shiftr r 6)); byte_of (Z.lor 128 (Z.land r 63))]
  else if r <? 65536 then
    [byte_of (Z.lor 224 (Z.shiftr r 12));
     byte_of (Z.lor 128 (Z.land (Z.shiftr r 6) 63));
     byte_of (Z.lor 128 (Z.land r 63))]
  else
    [byte_of (Z.lor 240 (Z.shiftr r 18));
     byte_of (Z.lor 128 (Z.land (Z.shiftr r 12) 63));
     byte_of (Z.lor 128 (Z.land (Z.shiftr r 6) 63));
     byte_of (Z.lor 128 (Z.land r 63))].

Definition is_surrogate (r : Z) : bool := (55296 <=? r) && (r <? 57344).
Definition RuneError : Z := 65533.

(** The second half of a surrogate pair, when the text goes on with one. *)
Definition low_surrogate (s : list byte) : option (Z * list byte) :=
  match s with
  | b :: u :: h3 :: h2 :: h1 :: h0 :: r =>
      if Ascii.eqb b "\"%char && Ascii.eqb u "u"%char then
        lo ← hex4 h3 h2 h1 h0;
        if (56320 <=? lo) && (lo <? 57344) then Some (lo, r) else None
      else None
  | _ => None
  end.

Definition simple_escape (c : byte) : option byte :=
  if Ascii.eqb c "034"%char then Some c
  else if Ascii.eqb c "\"%char then Some c
  else if Ascii.eqb c "/"%char then Some c
  else if Ascii.eqb c "b"%char then Some "008"%char
  else if Ascii.eqb c "f"%char then Some "012"%char
  else if Ascii.eqb c "n"%char then Some "010"%char
  else if Ascii.eqb c "r"%char then Some "013"%char
  else if Ascii.eqb c "t"%char then Some "009"%char
  else None.

(** The contents of a string literal, after its opening quote: the
    unescaped bytes and the text after the closing quote. Bytes of
    multi-byte characters are copied as they are. *)
Fixpoint scan_string (s : list byte) : option (list byte * list byte) :=
  match s with
  | [] => None
  | c :: r =>
      if Ascii.eqb c "034"%char then Some ([], r)
      else if Ascii.eqb c "\"%char then
        match r with
        | e :: r1 =>
            if Ascii.eqb e "u"%char then
              match r1 with
              | h3 :: h2 :: h1 :: h0 :: r2 =>
                  hi ← hex4 h3 h2 h1 h0;
                  if (55296 <=? hi) && (hi <? 56320) then
                    match low_surrogate r2 with
                    | Some (lo, _) =>
                        match r2 with
                        | _ :: _ :: _ :: _ :: _ :: _ :: r3 =>
                            '(out, rest) ← scan_string r3;
                            Some (utf8 (65536 + Z.lor (Z.shiftl (hi - 55296) 10) (lo - 56320))
                                  ++ out, rest)
                        | _ => None
                        end
                    | None =>
                        '(out, rest) ← scan_string r2;
                        Some (utf8 RuneError ++ out, rest)
                    end
                  else
                    '(out, rest) ← scan_string r2;
                    Some (utf8 (if is_surrogate hi then RuneError else hi) ++ out, rest)
              | _ => None
              end
            else
              x ← simple_escape e;
              '(out, rest) ← scan_string r1;
              Some (x :: out, rest)
        | [] => None
        end
      else if uint c <? 32 then None
      else '(out, rest) ← scan_string r; Some (c :: out, rest)
  end.

(** The text between the start [s] of a value and the rest [r] after it. *)
Definition consumed (s r : list byte) : string :=
  string_of (take (length s - length r) s).

(** Recursive descent over the text. [fuel] bounds the depth of the calls;
    [parse] below gives more than the text can use. *)
Fixpoint parse_value (fuel : nat) (s0 : list byte) {struct fuel}
  : option (Tree * list byte) :=
  match fuel with
  | O => None
  | S fuel' =>
      let s := skip_space s0 in
      match s with
      | [] => None
      | c :: r =>
          if Ascii.eqb c "["%char then
            match skip_space r with
            | c' :: r' =>
                if Ascii.eqb c' "]"%char then Some (Arr (consumed s r') [], r')
                else '(es, r'') ← parse_elems fuel' r; Some (Arr (consumed s r'') es, r'')
            | [] => None
            end
          else if Ascii.eqb c "{"%char then
            match skip_space r with
            | c' :: r' =>
                if Ascii.eqb c' "}"%char then Some (Obj (consumed s r') [], r')
                else '(ms, r'') ← parse_members fuel' r; Some (Obj (consumed s r'') ms, r'')
            | [] => None
            end
          else if Ascii.eqb c "034"%char then
            '(str, r') ← scan_string r;
            Some (Leaf (consumed s r') (TString (string_of str)), r')
          else
            match strip (bytes "null") s, strip (bytes "true") s, strip (bytes "false") s with
            | Some r', _, _ => Some (Leaf "null" TNull, r')
            | _, Some r', _ => Some (Leaf "true" TTrue, r')
            | _, _, Some r' => Some (Leaf "false" TFalse, r')
            | _, _, _ => '(lit, r') ← scan_number s; Some (Leaf (string_of lit) TNumber, r')
            end
      end
  end
with parse_elems (fuel : nat) (s : list byte) {struct fuel}
  : option (list Tree * list byte) :=
  match fuel with
  | O => None
  | S fuel' =>
      '(v, r) ← parse_value fuel' s;
      match skip_space r with
      | c :: r' =>
          if Ascii.eqb c ","%char then
            '(vs, r'') ← parse_elems fuel' r'; Some (v :: vs, r'')
          else if Ascii.eqb c "]"%char then Some ([v], r')
          else None
      | [] => None
      end
  end
with parse_members (fuel : nat) (s : list byte) {struct fuel}
  : option (list (string * Tree) * list byte) :=
  match fuel with
  | O => None
  | S fuel' =>
      match skip_space s with
      | q :: r0 =>
          if Ascii.eqb q "034"%char then
            '(key, r1) ← scan_string r0;
            match skip_space r1 with
            | c :: r2 =>
                if Ascii.eqb c ":"%char then
                  '(v, r3) ← parse_value fuel' r2;
                  match skip_space r3 with
                  | c' :: r4 =>
                      if Ascii.eqb c' ","%char then
                        '(ms, r5) ← parse_members fuel' r4;
                        Some ((string_of key, v) :: ms, r5)
                      else if Ascii.eqb c' "}"%char then Some ([(string_of key, v)], r4)
                      else None
                  | [] => None
                  end
                else None
            | [] => None
            end
          else None
      | [] => None
      end
  end.

(** A whole text holds one value and white space. Of two nested calls of
    the three functions above, one has read a character of the text, so
    twice the length is enough fuel ([parse_fuel_enough] below). *)
Definition parse (text : string) : option Tree :=
  let s := bytes text in
  match parse_value (2 * length s + 2) s with
  | Some (t, r) => match skip_space r with [] => Some t | _ => None end
  | None => None
  end.

End jsontext.

(** ** The accessors of a response value (gjson)

    The value of a response is read through [String], [Int], [Array] and
    [Get]. A [Result] is a value of the response text, or [None] when the
    text has no such value. *)

Module gjson.

Import jsontext.

Definition Result := option Tree.

Definition Parse (text : string) : Result := parse text.

Definition Exists (r : Result) : bool :=
  match r with Some _ => true | None => false end.

Definition IsArray (r : Result) : bool :=
  match r with Some (Arr _ _) => true | _ => false end.

Definition IsObject (r : Result) : bool :=
  match r with Some (Obj _ _) => true | _ => false end.

(** [Raw]: the JSON text of the value, empty for a missing value. *)
Definition Raw (r : Result) : string :=
  match r with Some t => jsontext.Raw t | None => "" end.

Fixpoint digits_value (acc : Z) (ds : list byte) : option Z :=
  match ds with
  | [] => Some acc
  | c :: r => if is_digit c then digits_value (acc * 10 + (uint c - 48)) r else None
  end.

(** [parseInt]: an optional minus sign and digits, nothing else. *)
Definition parseInt (s : list byte) : option Z :=
  match s with
  | [] => None
  | c :: r =>
      if Ascii.eqb c "-"%char then
        match r with
        | [] => None
        | _ => n ← digits_value 0 r; Some (wrap64 (- wrap64 n))
        end
      else wrap64 <$> digits_value 0 s
  end.

(** The integer that a number literal denotes, fraction dropped: the
    literal is [-? int (. frac)? (e exp)?]. For a literal that is not an
    integer this is the truncation of its exact decimal value (gjson
    truncates the float64 next to that value). *)
Definition number_int (lit : list byte) : Z :=
  match parseInt lit with
  | Some n => n
  | None =>
      let '(neg, s1) := match lit with
                        | c :: r => if Ascii.eqb c "-"%char then (true, r) else (false, lit)
                        | [] => (false, lit)
                        end in
      let '(i, s2) := span_digits s1 in
      let '(f, s3) := match s2 with
                      | c :: r => if Ascii.eqb c "."%char then span_digits r else ([], s2)
                      | [] => ([], s2)
                      end in
      let e := match s3 with
               | _ :: r =>
                   let '(sg, r1) := scan_sign r in
                   let n := default 0 (digits_value 0 (fst (span_digits r1))) in
                   if bool_decide (sg = ["-"%char]) then - n else n
               | [] => 0
               end in
      let m := default 0 (digits_value 0 (i ++ f)) in
      let k := e - Z.of_nat (length f) in
      let a := if 0 <=? k then m * 10 ^ k else Z.quot m (10 ^ (- k)) in
      wrap64 (if neg then - a else a)
  end.

(** [Int]: the integer of a number, [1] for [true], the integer a string
    spells, and [0] otherwise. *)
Definition Int (r : Result) : Z :=
  match r with
  | Some (Leaf _ TTrue) => 1
  | Some (Leaf _ (TString s)) => default 0 (parseInt (bytes s))
  | Some (Leaf raw TNumber) => number_int (bytes raw)
  | _ => 0
  end.

(** [Array]: the elements of an array; no element for [null] or a missing
    value; any other value is an array of itself. *)
Definition Array (r : Result) : list Result :=
  match r with
  | None | Some (Leaf _ TNull) => []
  | Some (Arr _ es) => map Some es
  | Some t => [Some t]
  end.

Fixpoint member (key : string) (ms : list (string * Tree)) : Result :=
  match ms with
  | [] => None
  | (k, v) :: ms' => if String.eqb k key then Some v else member key ms'
  end.

(** [Get] with a plain key: the first member of that name of an object. *)
Definition Get (r : Result) (key : string) : Result :=
  match r with
  | Some (Obj _ ms) => member key ms
  | _ => None
  end.

(** [String]: the contents of a string, the literal of a number or a
    boolean, the text of an object or an array, and the empty string for
    [null] or a missing value. (A number literal that is not an integer is
    printed by gjson from its float64; here it stays the literal.) *)
Definition String (r : Result) : string :=
  match r with
  | None | Some (Leaf _ TNull) => ""
  | Some (Leaf _ TFalse) => "false"
  | Some (Leaf _ TTrue) => "true"
  | Some (Leaf raw TNumber) => raw
  | Some (Leaf _ (TString s)) => s
  | Some (Arr raw _) | Some (Obj raw _) => raw
  end.

End gjson.

(** ** encoding/json: decoding into the structs of the client *)

Module json.

Import jsontext.

(** A field of a struct of type [S] with a [json] tag: its name and how a
    value is stored into it. *)
Record Field (S : Type) := mkField {
  name : string;
  store : Tree -> S -> S * error
}.
Arguments mkField {S}.
Arguments name {S}.
Arguments store {S}.

Definition lower (c : byte) : byte :=
  if (65 <=? uint c) && (uint c <=? 90) then byte_of (uint c + 32) else c.

Definition equalFold (a b : string) : bool :=
  bool_decide (map lower (bytes a) = map lower (bytes b)).

(** The field a key names: the field of exactly that name, or else the
    first one equal to it up to the case of ASCII letters. *)
Definition field_of {S} (fields : list (Field S)) (key : string) : option (Field S) :=
  match find (fun f => String.eqb (name f) key) fields with
  | Some f => Some f
  | None => find (fun f => equalFold (name f) key) fields
  end.

(** [saveError]: the first error of a decode is the one returned. *)
Definition saveError (saved new : error) : error :=
  match saved with Some _ => saved | None => new end.

Definition UnmarshalTypeError (what : string) : Err :=
  DecodeError ("json: cannot unmarshal " +:+ what).
Definition SyntaxError : Err := DecodeError "json: invalid syntax".

(** The members of an object are stored in the order of the text; a key
    that names no field is skipped; decoding goes on after a type error. *)
Definition object {S} (fields : list (Field S)) (ms : list (string * Tree)) (v : S)
  : S * error :=
  fold_left (fun acc m =>
               match field_of fields (fst m) with
               | Some f => let '(v', e) := store f (snd m) (fst acc) in
                           (v', saveError (snd acc) e)
               | None => acc
               end) ms (v, nil).

(** A struct is read from an object; [null] leaves it as it is. *)
Definition struct_ {S} (fields : list (Field S)) (t : Tree) (v : S) : S * error :=
  match t with
  | Leaf _ TNull => (v, nil)
  | Obj _ ms => object fields ms v
  | Arr _ _ => (v, Some (UnmarshalTypeError "array"))
  | Leaf _ TNumber => (v, Some (UnmarshalTypeError "number"))
  | Leaf _ (TString _) => (v, Some (UnmarshalTypeError "string"))
  | Leaf _ _ => (v, Some (UnmarshalTypeError "bool"))
  end.

Definition what (t : Tree) : string :=
  match t with
  | Leaf _ TNumber => "number"
  | Leaf _ (TString _) => "string"
  | Leaf _ _ => "bool"
  | Arr _ _ => "array"
  | Obj _ _ => "object"
  end.

(** Storing into a field of type [string], [int], [bool] and [float32]. *)
Definition string_field {S} (set : string -> S -> S) (t : Tree) (v : S) : S * error :=
  match t with
  | Leaf _ TNull => (v, nil)
  | Leaf _ (TString s) => (set s v, nil)
  | _ => (v, Some (UnmarshalTypeError (what t)))
  end.

(** [strconv.ParseInt(lit, 10, 64)] of a JSON number literal. *)
Definition ParseInt (lit : list byte) : option Z :=
  let '(neg, ds) := match lit with
                    | c :: r => if Ascii.eqb c "-"%char then (true, r) else (false, lit)
                    | [] => (false, lit)
                    end in
  match ds with
  | [] => None
  | _ =>
      n ← gjson.digits_value 0 ds;
      let z := if neg then - n else n in
      if (- 2 ^ 63 <=? z) && (z <? 2 ^ 63) then Some z else None
  end.

Definition int_field {S} (set : Z -> S -> S) (t : Tree) (v : S) : S * error :=
  match t with
  | Leaf _ TNull => (v, nil)
  | Leaf raw TNumber =>
      match ParseInt (bytes raw) with
      | Some n => (set n v, nil)
      | None => (v, Some (UnmarshalTypeError ("number " +:+ raw)))
      end
  | _ => (v, Some (UnmarshalTypeError (what t)))
  end.

Definition bool_field {S} (set : bool -> S -> S) (t : Tree) (v : S) : S * error :=
  match t with
  | Leaf _ TNull => (v, nil)
  | Leaf _ TTrue => (set true v, nil)
  | Leaf _ TFalse => (set false v, nil)
  | _ => (v, Some (UnmarshalTypeError (what t)))
  end.

(** A [float32] is kept as the number literal it was read from; its zero
    value is the literal [0]. *)
Definition float32 := string.

Definition float_field {S} (set : float32 -> S -> S) (t : Tree) (v : S) : S * error :=
  match t with
  | Leaf _ TNull => (v, nil)
  | Leaf raw TNumber => (set raw v, nil)
  | _ => (v, Some (UnmarshalTypeError (what t)))
  end.

(** A field that is itself a struct. *)
Definition struct_field {S T} (get : S -> T) (set : T -> S -> S)
    (fields : list (Field T)) (t : Tree) (v : S) : S * error :=
  let '(x, e) := struct_ fields t (get v) in (set x v, e).

(** [json.Unmarshal(data, &v)]: a text that is not valid JSON is a syntax
    error and leaves [v] as it is. *)
Definition Unmarshal {S} (fields : list (Field S)) (data : list byte) (v : S)
  : S * error :=
  match parse (string_of data) with
  | None => (v, Some SyntaxError)
  | Some t => struct_ fields t v
  end.

End json.

(** ** Request bodies

    [wdaBody] is a [map[string]interface{}]; [Value] lists the values the
    session methods put into one. A floating-point value is kept as its
    literal. The map is only ever reached through the variable that holds
    it, so an update in place is a new binding of that variable. *)

Inductive Value :=
| VString (s : string)
| VBool (b : bool)
| VInt (n : Z)
| VFloat (lit : string)
| VStrings (l : list string)
| VEnv (m : gmap string string).

Abbreviation wdaBody := (gmap string Value).

Definition newWdaBody : wdaBody := ∅.

(** Modelled from the spec: [wdaBody.set], which session.go calls and does
    not define. The body builder is a mapping from field name to value
    with chainable setters; [set] stores one field. *)
Definition set (wb : wdaBody) (k : string) (v : Value) : wdaBody := <[k := v]> wb.

(** Modelled from the spec: [setBundleID], [setXY] and [setSendKeys],
    which session.go calls and does not define; they build the bodies
    [{bundleId}], [{x, y}] and the text body of [/wda/keys]. *)
Definition setBundleID (wb : wdaBody) (bundleId : string) : wdaBody :=
  set wb "bundleId" (VString bundleId).
Definition setXY (wb : wdaBody) (x y : Z) : wdaBody :=
  set (set wb "x" (VInt x)) "y" (VInt y).
Definition setSendKeys (wb : wdaBody) (text : string) : wdaBody :=
  set wb "value" (VString text).

(** Modelled from the spec: [setAppLaunchOption], which session.go calls
    and does not define. The launch body is
    [{bundleId, shouldWaitForQuiescence?, arguments?, environment?}], so
    every field of the option is stored into the body. *)
Definition setAppLaunchOption (wb : wdaBody) (opt : wdaBody) : wdaBody :=
  map_fold (fun k v acc => set acc k v) wb opt.

(** ** Responses *)

(** Modelled from the spec: the type [wdaResponse], which session.go uses
    and does not define. The response envelope holds a value payload and
    an optional embedded error message (empty when there is none). *)
Record wdaResponse := mkResponse {
  value : gjson.Result;
  errMsg : string
}.

Definition getValue (r : wdaResponse) : gjson.Result := value r.

(** Modelled from the spec: [getErrMsg], which session.go calls and does
    not define. A non-empty embedded message is a server error, distinct
    from a failure of the transport. *)
Definition getErrMsg (r : wdaResponse) : error :=
  if bool_decide (errMsg r = "") then nil else Some (ServerError (errMsg r)).

(** ** The world outside: transport and files *)

Inductive Method := GET | POST | DELETE.

Record Request := mkRequest {
  method : Method;
  actionName : string;
  url : string;
  body : option wdaBody
}.

(** A file handle returned by [os.Open]. *)
Record File := mkFile {
  fd : nat;
  path : string
}.

Inductive Event :=
| Sent (r : Request)
| Opened (f : File)
| Read (f : File)
| Closed (f : File).

(** - [respond] is the transport together with the server: the outcome of a
      request, a response envelope and the error of the transport.
    - [files] is the file system: [None] for a name that cannot be opened;
      otherwise the bytes [ReadAll] returns and the message of its error,
      if it fails.
    - [trace] lists what the client did, oldest first.
    - [open_files] are the descriptors opened and not yet closed. *)
Record World := mkWorld {
  respond : Request -> wdaResponse * error;
  files : string -> option (list byte * option string);
  trace : list Event;
  open_files : gset nat;
  next_fd : nat
}.

(** Computations that read and change the world. *)
Definition M (A : Type) : Type := World -> A * World.

#[global] Instance M_ret : MRet M := fun A (a : A) w => (a, w).
#[global] Instance M_bind : MBind M :=
  fun A B (f : A -> M B) (m : M A) w => let '(a, w') := m w in f a w'.

Definition log (e : Event) : M unit := fun w =>
  (tt, mkWorld (respond w) (files w) (trace w ++ [e]) (open_files w) (next_fd w)).

(** Modelled from the spec: [internalGet], [internalPost] and
    [internalDelete], which session.go calls and does not define. The
    transport shim performs the GET, POST or DELETE and returns the response
    wrapper and the error of the transport. *)
Definition roundTrip (r : Request) : M (wdaResponse * error) := fun w =>
  (respond w r, w).

Definition executeHTTP (r : Request) : M (wdaResponse * error) :=
  _ ← log (Sent r);
  roundTrip r.

Definition internalGet (actionName url : string) : M (wdaResponse * error) :=
  executeHTTP (mkRequest GET actionName url None).
Definition internalPost (actionName url : string) (body : wdaBody)
  : M (wdaResponse * error) :=
  executeHTTP (mkRequest POST actionName url (Some body)).
Definition internalDelete (actionName url : string) : M (wdaResponse * error) :=
  executeHTTP (mkRequest DELETE actionName url None).

(** [os.Open]: a new descriptor, or an error and no file. *)
Definition os_Open (name : string) : M (option File * error) := fun w =>
  match files w name with
  | None => ((None, Some (IOError ("open " +:+ name))), w)
  | Some _ =>
      let f := mkFile (next_fd w) name in
      ((Some f, nil),
       mkWorld (respond w) (files w) (trace w ++ [Opened f])
               ({[next_fd w]} ∪ open_files w) (S (next_fd w)))
  end.

(** [ioutil.ReadAll]: the bytes read and the error that stopped the read. *)
Definition readFile (f : File) : M (list byte * error) := fun w =>
  match files w (path f) with
  | Some (data, Some msg) => ((data, Some (IOError msg)), w)
  | Some (data, None) => ((data, nil), w)
  | None => (([], Some (IOError ("read " +:+ path f))), w)
  end.

Definition ioutil_ReadAll (f : File) : M (list byte * error) :=
  _ ← log (Read f);
  readFile f.

(** [Close] of a file. *)
Definition File_Close (f : File) : M error := fun w =>
  (nil, mkWorld (respond w) (files w) (trace w ++ [Closed f])
                (open_files w ∖ {[fd f]}) (next_fd w)).

(** [defer d] placed before [body]: [d] runs when the function returns. *)
Definition defer {A B} (d : M B) (body : M A) : M A :=
  r ← body; _ ← d; mret r.

(** ** URLs

    [net/url] and the URL-joining helper are used through this interface.
    [url_Parse] returns the pointer ([None] for [nil]) and the error. *)
Class UrlLib := {
  URL : Type;
  URL_String : URL -> string;
  url_Parse : string -> option URL * error;
  urlJoin : URL -> list string -> string
}.

(** ** The typed results of the session methods

    Each struct keeps, in the unexported field [_string], the text it was
    decoded from; [json.Unmarshal] stores only into the tagged fields. *)

Module WDASessionInfo.

Record Capabilities_t := mkCapabilities {
  CFBundleIdentifier : string;
  BrowserName : string;
  Device : string;
  SdkVersion : string
}.

Record t := mk {
  Capabilities : Capabilities_t;
  SessionID : string;
  _string : string
}.

Definition zero : t := mk (mkCapabilities "" "" "" "") "" "".

Definition String (si : t) : string := _string si.

Definition capabilities_fields : list (json.Field Capabilities_t) :=
  [ json.mkField "CFBundleIdentifier" (json.string_field (fun x c =>
      mkCapabilities x (BrowserName c) (Device c) (SdkVersion c)));
    json.mkField "browserName" (json.string_field (fun x c =>
      mkCapabilities (CFBundleIdentifier c) x (Device c) (SdkVersion c)));
    json.mkField "device" (json.string_field (fun x c =>
      mkCapabilities (CFBundleIdentifier c) (BrowserName c) x (SdkVersion c)));
    json.mkField "sdkVersion" (json.string_field (fun x c =>
      mkCapabilities (CFBundleIdentifier c) (BrowserName c) (Device c) x)) ].

Definition fields : list (json.Field t) :=
  [ json.mkField "capabilities" (json.struct_field Capabilities
      (fun x v => mk x (SessionID v) (_string v)) capabilities_fields);
    json.mkField "sessionId" (json.string_field (fun x v =>
      mk (Capabilities v) x (_string v))) ].

End WDASessionInfo.

Module WDADeviceInfo.

Record t := mk {
  TimeZone : string;
  CurrentLocale : string;
  Model : string;
  UUID : string;
  UserInterfaceIdiom : Z;
  UserInterfaceStyle : string;
  Name : string;
  IsSimulator : bool;
  _string : string
}.

Definition zero : t := mk "" "" "" "" 0 "" "" false "".

Definition String (di : t) : string := _string di.

Definition fields : list (json.Field t) :=
  [ json.mkField "timeZone" (json.string_field (fun x v =>
      mk x (CurrentLocale v) (Model v) (UUID v) (UserInterfaceIdiom v)
         (UserInterfaceStyle v) (Name v) (IsSimulator v) (_string v)));
    json.mkField "currentLocale" (json.string_field (fun x v =>
      mk (TimeZone v) x (Model v) (UUID v) (UserInterfaceIdiom v)
         (UserInterfaceStyle v) (Name v) (IsSimulator v) (_string v)));
    json.mkField "model" (json.string_field (fun x v =>
      mk (TimeZone v) (CurrentLocale v) x (UUID v) (UserInterfaceIdiom v)
         (UserInterfaceStyle v) (Name v) (IsSimulator v) (_string v)));
    json.mkField "uuid" (json.string_field (fun x v =>
      mk (TimeZone v) (CurrentLocale v) (Model v) x (UserInterfaceIdiom v)
         (UserInterfaceStyle v) (Name v) (IsSimulator v) (_string v)));
    json.mkField "userInterfaceIdiom" (json.int_field (fun x v =>
      mk (TimeZone v) (CurrentLocale v) (Model v) (UUID v) x
         (UserInterfaceStyle v) (Name v) (IsSimulator v) (_string v)));
    json.mkField "userInterfaceStyle" (json.string_field (fun x v =>
      mk (TimeZone v) (CurrentLocale v) (Model v) (UUID v) (UserInterfaceIdiom v)
         x (Name v) (IsSimulator v) (_string v)));
    json.mkField "name" (json.string_field (fun x v =>
      mk (TimeZone v) (CurrentLocale v) (Model v) (UUID v) (UserInterfaceIdiom v)
         (UserInterfaceStyle v) x (IsSimulator v) (_string v)));
    json.mkField "isSimulator" (json.bool_field (fun x v =>
      mk (TimeZone v) (CurrentLocale v) (Model v) (UUID v) (UserInterfaceIdiom v)
         (UserInterfaceStyle v) (Name v) x (_string v))) ].

End WDADeviceInfo.

(** [WDABatteryState] is an [int]; its constants are numbered from 1. *)
Definition WDABatteryState := Z.


Module WDABatteryInfo.

Record t := mk {
  Level : json.float32;
  State : WDABatteryState;
  _string : string
}.

Definition zero : t := mk "0" 0 "".

Definition String (bi : t) : string := _string bi.

Definition fields : list (json.Field t) :=
  [ json.mkField "level" (json.float_field (fun x v => mk x (State v) (_string v)));
    json.mkField "state" (json.int_field (fun x v => mk (Level v) x (_string v))) ].

End WDABatteryInfo.

Module WDASize.

Record t := mk {
  Width : Z;
  Height : Z;
  _string : string
}.

Definition zero : t := mk 0 0 "".

Definition String (s : t) : string := _string s.

Definition fields : list (json.Field t) :=
  [ json.mkField "width" (json.int_field (fun x v => mk x (Height v) (_string v)));
    json.mkField "height" (json.int_field (fun x v => mk (Width v) x (_string v))) ].

End WDASize.

Module WDAScreen.

Record t := mk {
  StatusBarSize : WDASize.t;
  Scale : json.float32;
  _string : string
}.

Definition zero : t := mk WDASize.zero "0" "".

Definition String (s : t) : string := _string s.

Definition fields : list (json.Field t) :=
  [ json.mkField "statusBarSize" (json.struct_field StatusBarSize
      (fun x v => mk x (Scale v) (_string v)) WDASize.fields);
    json.mkField "scale" (json.float_field (fun x v =>
      mk (StatusBarSize v) x (_string v))) ].

End WDAScreen.

(** [WDAAppRunState] is an [int]; its constants are [1 << iota]. *)
Definition WDAAppRunState := Z.
Definition WDAAppNotRunning : WDAAppRunState := Z.shiftl 1 0.
Definition WDAAppRunningBack : WDAAppRunState := Z.shiftl 1 1.
Definition WDAAppRunningFront : WDAAppRunState := Z.shiftl 1 2.

Definition WDAAppRunState_String (v : WDAAppRunState) : string :=
  if v =? WDAAppNotRunning then "Not Running"
  else if v =? WDAAppRunningBack then "Running (Back)"
  else if v =? WDAAppRunningFront then "Running (Front)"
  else "UNKNOWN".

Definition WDAContentType := string.
Definition WDAContentTypePlaintext : WDAContentType := "plaintext".
Definition WDAContentTypeImage : WDAContentType := "image".
Definition WDAContentTypeUrl : WDAContentType := "url".

Definition WDADeviceButtonName := string.
Definition WDADeviceButtonHome : WDADeviceButtonName := "home".
Definition WDADeviceButtonVolumeUp : WDADeviceButtonName := "volumeUp".
Definition WDADeviceButtonVolumeDown : WDADeviceButtonName := "volumeDown".

(** ** Launch options *)

Abbreviation WDAAppLaunchOption := (gmap string Value).

Definition NewWDAAppLaunchOption : WDAAppLaunchOption := ∅.

Definition SetShouldWaitForQuiescence (alo : WDAAppLaunchOption) (b : bool)
  : WDAAppLaunchOption := set alo "shouldWaitForQuiescence" (VBool b).
Definition SetArguments (alo : WDAAppLaunchOption) (args : list string)
  : WDAAppLaunchOption := set alo "arguments" (VStrings args).
Definition SetEnvironment (alo : WDAAppLaunchOption) (env : gmap string string)
  : WDAAppLaunchOption := set alo "environment" (VEnv env).

(** ** The session and its methods *)

Section Session.

Context `{UrlLib}.

Record Session := mkSession {
  sessionURL : URL
}.

(** An element handle: the URL pointer is [None] when it is [nil]. *)
Record Element := mkElement {
  elementURL : option URL
}.

Definition GetActiveSession (s : Session) : M (WDASessionInfo.t * error) :=
  '(wdaResp, err) ← internalGet "GetActiveSession" (urlJoin (sessionURL s) [""]);
  match err with
  | Some _ => mret (WDASessionInfo.zero, err)
  | None =>
      let wdaSessionInfo :=
        WDASessionInfo.mk (WDASessionInfo.Capabilities WDASessionInfo.zero)
                          (WDASessionInfo.SessionID WDASessionInfo.zero)
                          (gjson.String (getValue wdaResp)) in
      mret (json.Unmarshal WDASessionInfo.fields
              (bytes (WDASessionInfo._string wdaSessionInfo)) wdaSessionInfo)
  end.

Definition DeleteSession (s : Session) : M error :=
  '(_, err) ← internalDelete "DeleteSession" (URL_String (sessionURL s));
  mret err.

(** [opt] is the variadic argument; without one, the option that waits for
    quiescence is used. *)
Definition AppLaunch (s : Session) (bundleId : string) (opt : list WDAAppLaunchOption)
  : M error :=
  let opt := if bool_decide (length opt = 0%nat)
             then [SetShouldWaitForQuiescence NewWDAAppLaunchOption true]
             else opt in
  let body := setBundleID newWdaBody bundleId in
  let body := setAppLaunchOption body (default ∅ (head opt)) in
  '(_, err) ← internalPost "AppLaunch" (urlJoin (sessionURL s) ["/wda/apps/launch"]) body;
  mret err.

Definition DeviceInfo (s : Session) : M (WDADeviceInfo.t * error) :=
  '(wdaResp, err) ← internalGet "DeviceInfo" (urlJoin (sessionURL s) ["/wda/device/info"]);
  match err with
  | Some _ => mret (WDADeviceInfo.zero, err)
  | None =>
      let z := WDADeviceInfo.zero in
      let wdaDeviceInfo :=
        WDADeviceInfo.mk (WDADeviceInfo.TimeZone z) (WDADeviceInfo.CurrentLocale z)
          (WDADeviceInfo.Model z) (WDADeviceInfo.UUID z)
          (WDADeviceInfo.UserInterfaceIdiom z) (WDADeviceInfo.UserInterfaceStyle z)
          (WDADeviceInfo.Name z) (WDADeviceInfo.IsSimulator z)
          (gjson.String (getValue wdaResp)) in
      mret (json.Unmarshal WDADeviceInfo.fields
              (bytes (WDADeviceInfo._string wdaDeviceInfo)) wdaDeviceInfo)
  end.

Definition BatteryInfo (s : Session) : M (WDABatteryInfo.t * error) :=
  '(wdaResp, err) ← internalGet "BatteryInfo" (urlJoin (sessionURL s) ["/wda/batteryInfo"]);
  match err with
  | Some _ => mret (WDABatteryInfo.zero, err)
  | None =>
      let wdaBatteryInfo :=
        WDABatteryInfo.mk (WDABatteryInfo.Level WDABatteryInfo.zero)
                          (WDABatteryInfo.State WDABatteryInfo.zero)
                          (gjson.String (getValue wdaResp)) in
      mret (json.Unmarshal WDABatteryInfo.fields
              (bytes (WDABatteryInfo._string wdaBatteryInfo)) wdaBatteryInfo)
  end.

Definition WindowSize (s : Session) : M (WDASize.t * error) :=
  '(wdaResp, err) ← internalGet "WindowSize" (urlJoin (sessionURL s) ["/window/size"]);
  match err with
  | Some _ => mret (WDASize.zero, err)
  | None =>
      let wdaSize :=
        WDASize.mk (WDASize.Width WDASize.zero) (WDASize.Height WDASize.zero)
                   (gjson.String (getValue wdaResp)) in
      mret (json.Unmarshal WDASize.fields (bytes (WDASize._string wdaSize)) wdaSize)
  end.

Definition Screen (s : Session) : M (WDAScreen.t * error) :=
  '(wdaResp, err) ← internalGet "Screen" (urlJoin (sessionURL s) ["/wda/screen"]);
  match err with
  | Some _ => mret (WDAScreen.zero, err)
  | None =>
      let z := WDAScreen.zero in
      let statusBarSize :=
        WDASize.mk (WDASize.Width (WDAScreen.StatusBarSize z))
                   (WDASize.Height (WDAScreen.StatusBarSize z))
                   (gjson.String (gjson.Get (getValue wdaResp) "statusBarSize")) in
      let wdaScreen :=
        WDAScreen.mk statusBarSize (WDAScreen.Scale z)
                     (gjson.String (getValue wdaResp)) in
      mret (json.Unmarshal WDAScreen.fields (bytes (WDAScreen._string wdaScreen)) wdaScreen)
  end.

Definition Scale (s : Session) : M (json.float32 * error) :=
  '(screen, err) ← Screen s;
  mret (WDAScreen.Scale screen, err).

Definition StatusBarSize (s : Session) : M (WDASize.t * error) :=
  '(screen, err) ← Screen s;
  mret (WDAScreen.StatusBarSize screen, err).

Definition Tap (s : Session) (x y : Z) : M error :=
  let body := setXY newWdaBody x y in
  '(wdaResp, err) ← internalPost "Tap" (urlJoin (sessionURL s) ["wda"; "tap"; "0"]) body;
  match err with
  | Some _ => mret err
  | None => mret (getErrMsg wdaResp)
  end.

Definition DoubleTap (s : Session) (x y : Z) : M error :=
  let body := setXY newWdaBody x y in
  '(_, err) ← internalPost "DoubleTap" (urlJoin (sessionURL s) ["wda"; "doubleTap"]) body;
  mret err.

(** [duration] is the variadic argument. *)
Definition TouchAndHold (s : Session) (x y : Z) (duration : list json.float32) : M error :=
  let body := setXY newWdaBody x y in
  let body := match duration with
              | [] => set body "duration" (VFloat "1.0")
              | d :: _ => set body "duration" (VFloat d)
              end in
  '(_, err) ← internalPost "TouchAndHold" (urlJoin (sessionURL s) ["wda"; "touchAndHold"]) body;
  mret err.

Definition AppTerminate (s : Session) (bundleId : string) : M error :=
  let body := setBundleID newWdaBody bundleId in
  '(_, err) ← internalPost "AppTerminate" (urlJoin (sessionURL s) ["/wda/apps/terminate"]) body;
  mret err.

Definition AppState (s : Session) (bundleId : string) : M (WDAAppRunState * error) :=
  let body := setBundleID newWdaBody bundleId in
  '(wdaResp, err) ← internalPost "AppState" (urlJoin (sessionURL s) ["/wda/apps/state"]) body;
  match err with
  | Some _ => mret (-1, err)
  | None => mret (gjson.Int (getValue wdaResp), nil)
  end.

Definition SendKeys (s : Session) (text : string) : M error :=
  let body := setSendKeys newWdaBody text in
  '(wdaResp, err) ← internalPost "SendKeys" (urlJoin (sessionURL s) ["/wda/keys"]) body;
  match err with
  | Some _ => mret err
  | None => mret (getErrMsg wdaResp)
  end.

(** The result slice is [None] when it is [nil]. The loop appends one
    handle for each result, in order. *)
Definition FindElements (s : Session) (using_ value : string)
  : M (option (list Element) * error) :=
  let body := set (set newWdaBody "using" (VString using_)) "value" (VString value) in
  '(wdaResp, err) ← internalPost "FindElements" (urlJoin (sessionURL s) ["elements"]) body;
  match err with
  | Some _ => mret (None, err)
  | None =>
      let results := gjson.Array (getValue wdaResp) in
      if bool_decide (length results = 0%nat) then mret (None, Some ErrNoSuchElement)
      else
        let elements :=
          fold_left (fun elements res =>
                       let elementId := gjson.String (gjson.Get res "ELEMENT") in
                       let ele := mkElement
                         (fst (url_Parse (urlJoin (sessionURL s) ["element"; elementId]))) in
                       elements ++ [ele]) results [] in
        mret (Some elements, nil)
  end.

Definition FindElement (s : Session) (using_ value : string) : M (Element * error) :=
  let body := set (set newWdaBody "using" (VString using_)) "value" (VString value) in
  '(wdaResp, err) ← internalPost "FindElements" (urlJoin (sessionURL s) ["element"]) body;
  match err with
  | Some _ => mret (mkElement None, err)
  | None =>
      let elementID := gjson.String (gjson.Get (getValue wdaResp) "ELEMENT") in
      if bool_decide (elementID = "") then mret (mkElement None, Some ErrNoSuchElement)
      else
        mret (mkElement (fst (url_Parse (urlJoin (sessionURL s) ["element"; elementID]))),
              nil)
  end.

Definition AppActivate (s : Session) (bundleId : string) : M error :=
  let body := setBundleID newWdaBody bundleId in
  '(_, err) ← internalPost "AppActivate" (urlJoin (sessionURL s) ["/wda/apps/activate"]) body;
  mret err.

Definition AppDeactivate (s : Session) (seconds : list json.float32) : M error :=
  let body := newWdaBody in
  let body := match seconds with
              | [] => body
              | d :: _ => set body "duration" (VFloat d)
              end in
  '(wdaResp, err) ← internalPost "AppDeactivate" (urlJoin (sessionURL s) ["/wda/deactivateApp"]) body;
  match err with
  | Some _ => mret err
  | None => mret (getErrMsg wdaResp)
  end.

Definition SetPasteboard (s : Session) (contentType : WDAContentType)
    (encodedContent : string) : M error :=
  let body := newWdaBody in
  let body := set body "contentType" (VString contentType) in
  let body := set body "content" (VString encodedContent) in
  '(_, err) ← internalPost "SetPasteboard" (urlJoin (sessionURL s) ["/wda/setPasteboard"]) body;
  mret err.

Definition SetPasteboardForPlaintext (s : Session) (content : string) : M error :=
  let encodedContent := base64.EncodeToString base64.StdEncoding (bytes content) in
  SetPasteboard s WDAContentTypePlaintext encodedContent.

Definition SetPasteboardForImage (s : Session) (filename : string) : M error :=
  '(imgFile, err) ← os_Open filename;
  match err, imgFile with
  | Some _, _ => mret err
  | None, None => mret err
  | None, Some imgFile =>
      defer (File_Close imgFile)
        ('(all, err) ← ioutil_ReadAll imgFile;
         match err with
         | Some _ => mret err
         | None =>
             let encodedContent := base64.EncodeToString base64.StdEncoding all in
             SetPasteboard s WDAContentTypeImage encodedContent
         end)
  end.

Definition SetPasteboardForUrl (s : Session) (url : string) : M error :=
  let encodedContent := base64.EncodeToString base64.URLEncoding (bytes url) in
  SetPasteboard s WDAContentTypeUrl encodedContent.

Definition PressButton (s : Session) (wdaDeviceButton : WDADeviceButtonName) : M error :=
  let body := set newWdaBody "name" (VString wdaDeviceButton) in
  '(_, err) ← internalPost "PressButton" (urlJoin (sessionURL s) ["/wda/pressButton"]) body;
  mret err.

Definition PressHomeButton (s : Session) : M error :=
  PressButton s WDADeviceButtonHome.
Definition PressVolumeUpButton (s : Session) : M error :=
  PressButton s WDADeviceButtonVolumeUp.
Definition PressVolumeDownButton (s : Session) : M error :=
  PressButton s WDADeviceButtonVolumeDown.

Definition SiriActivate (s : Session) (text : string) : M error :=
  let body := set newWdaBody "text" (VString text) in
  '(_, err) ← internalPost "SiriActivate" (urlJoin (sessionURL s) ["/wda/siri/activate"]) body;
  mret err.

Definition SiriOpenURL (s : Session) (url : string) : M error :=
  let body := set newWdaBody "url" (VString url) in
  '(_, err) ← internalPost "SiriOpenURL" (urlJoin (sessionURL s) ["/url"]) body;
  mret err.

End Session.

(** ** Decoding into a slice of structs

    [json.Unmarshal] into a slice whose elements are structs with the
    fields [fields]: an array gives one element for each of its values, each
    decoded from the zero value; [null] sets the slice to [nil] ([None]);
    any other value is a type error and leaves the slice as it is. *)

Definition slice_value {T} (zero : T) (fields : list (json.Field T))
    (t : jsontext.Tree) (v : option (list T)) : option (list T) * error :=
  match t with
  | jsontext.Leaf _ jsontext.TNull => (None, nil)
  | jsontext.Arr _ es =>
      let '(l, e) :=
        fold_left (fun acc el =>
                     let '(x, e) := json.struct_ fields el zero in
                     (fst acc ++ [x], json.saveError (snd acc) e))
                  es ([], nil) in
      (Some l, e)
  | _ => (v, Some (json.UnmarshalTypeError (json.what t)))
  end.

Definition Unmarshal_slice {T} (zero : T) (fields : list (json.Field T))
    (data : list byte) (v : option (list T)) : option (list T) * error :=
  match jsontext.parse (string_of data) with
  | None => (v, Some json.SyntaxError)
  | Some t => slice_value zero fields t v
  end.

(** ** More session methods *)

Section SessionLists.

Context `{UrlLib}.

(** The element type of [ActiveAppsList], [WDAAppBaseInfo], is declared
    outside session.go: its zero value and its tagged fields are taken as
    they are. *)
Variable WDAAppBaseInfo : Type.
Variable WDAAppBaseInfo_zero : WDAAppBaseInfo.
Variable WDAAppBaseInfo_fields : list (json.Field WDAAppBaseInfo).

(** The list is [None] when it is [nil]; [make] gives the empty list. *)
Definition ActiveAppsList (s : Session)
  : M (option (list WDAAppBaseInfo) * error) :=
  '(wdaResp, err) ← internalGet "ActiveAppsList" (urlJoin (sessionURL s) ["/wda/apps/list"]);
  match err with
  | Some _ => mret (None, err)
  | None =>
      let appsList := Some [] in
      mret (Unmarshal_slice WDAAppBaseInfo_zero WDAAppBaseInfo_fields
              (bytes (gjson.String (getValue wdaResp))) appsList)
  end.

Definition GetAppiumSettings (s : Session) : M (string * error) :=
  '(wdaResp, err) ← internalGet "GetAppiumSettings" (urlJoin (sessionURL s) ["/appium/settings"]);
  match err with
  | Some _ => mret ("", err)
  | None => mret (gjson.String (getValue wdaResp), nil)
  end.

End SessionLists.

(** Modelled from the spec: the struct [WDAAppBaseInfo], which session.go
    uses and does not declare; the list endpoint answers with objects
    [{pid, bundleId}]. *)
Module WDAAppBaseInfo.

Record t := mk {
  Pid : Z;
  BundleID : string
}.

Definition zero : t := mk 0 "".

Definition fields : list (json.Field t) :=
  [ json.mkField "pid" (json.int_field (fun x v => mk x (BundleID v)));
    json.mkField "bundleId" (json.string_field (fun x v => mk (Pid v) x)) ].

End WDAAppBaseInfo.

(** ** Laws of the URL interface

    What the properties of element handles below ask of the helpers: a
    joined URL extends the text of the base URL, and it parses to a URL of
    that same text. *)
Class UrlLaws `{UrlLib} : Prop := {
  urlJoin_prefix : forall (u : URL) (elems : list string),
    String.prefix (URL_String u) (urlJoin u elems) = true;
  url_Parse_join : forall (u : URL) (elems : list string),
    exists v, url_Parse (urlJoin u elems) = (Some v, nil)
              /\ URL_String v = urlJoin u elems
}.

(** ** A mock server

    URLs as plain text, joined with slashes, and worlds whose server gives
    one fixed answer to every request. *)

Definition TextUrl : UrlLib := {|
  URL := string;
  URL_String := fun u => u;
  url_Parse := fun s => (Some s, nil);
  urlJoin := fun u elems => fold_left (fun acc e => acc +:+ "/" +:+ e) elems u
|}.

Definition mockServer (answer : wdaResponse * error) : World :=
  mkWorld (fun _ => answer) (fun _ => None) [] ∅ 0.

Definition mockFiles (answer : wdaResponse * error)
    (fs : string -> option (list byte * option string)) : World :=
  mkWorld (fun _ => answer) fs [] ∅ 0.

(** The answer of a server whose response is [{"value": text}]. *)
Definition valueOf (text : string) : wdaResponse * error :=
  (mkResponse (gjson.Parse (dq text)) "", nil).

Definition mockSession : @Session TextUrl :=
  @mkSession TextUrl "http://localhost:8100/session/8BF16568".

(** ** Observations of a run *)

(** The requests of a trace, oldest first. *)
Definition sent (w : World) : list Request :=
  omap (fun e => match e with Sent r => Some r | _ => None end) (trace w).

(** The world after one request. *)
Definition after (w : World) (r : Request) : World :=
  mkWorld (respond w) (files w) (trace w ++ [Sent r]) (open_files w) (next_fd w).

(** The [content] field of the body of the last request. *)
Definition last_content (w : World) : option Value :=
  r ← last (sent w); b ← body r; b !! "content".

(** An element handle lies under [base] when its URL is set and the text
    of [base] is a prefix of its text. *)
Definition under `{UrlLib} (base : URL) (e : Element) : Prop :=
  exists u, elementURL e = Some u
            /\ String.prefix (URL_String base) (URL_String u) = true.

(** The body of the last request. *)
Definition last_body (w : World) : option wdaBody :=
  r ← last (sent w); body r.


(** The result [res] of a call that looks at the embedded message, against
    the answer of the transport: success exactly when the transport
    succeeded and the message is empty; an error of the transport comes
    first; otherwise the message is a [ServerError]. *)
Definition checked_outcome (res : error) (answer : wdaResponse * error) : Prop :=
  (res = nil <-> snd answer = nil /\ errMsg (fst answer) = "")
  /\ (forall e, snd answer = Some e -> res = Some e)
  /\ (snd answer = nil -> errMsg (fst answer) <> "" ->
      res = Some (ServerError (errMsg (fst answer)))).

(** A call whose result is the error of the transport for the one request
    it sends: nothing of the response reaches the caller. *)
Definition transport_only (m : M error) : Prop :=
  forall w, exists r, m w = (snd (respond w r), after w r).

(** * Properties *)

(** ** JSON text: the fuel of the parser *)

Section JsonFuel.

Import jsontext.

Lemma skip_space_length (s : list byte) : (length (skip_space s) <= length s)%nat.
Proof.
  induction s as [|c s IH]; cbn [skip_space length]; [lia|].
  destruct (is_space c); cbn [length]; lia.
Qed.

Lemma strip_length (p s r : list byte) :
  strip p s = Some r -> length s = (length p + length r)%nat.
Proof.
  revert s. induction p as [|a p IH]; intros [|b s] Hs; cbn [strip length] in *;
    try discriminate; try (injection Hs as <-; reflexivity).
  destruct (Ascii.eqb a b); [|discriminate]. rewrite (IH s Hs). reflexivity.
Qed.

Lemma span_digits_length (s ds r : list byte) :
  span_digits s = (ds, r) -> length s = (length ds + length r)%nat.
Proof.
  revert ds r. induction s as [|c s IH]; intros ds r Hs; cbn [span_digits] in Hs.
  - injection Hs as <- <-. reflexivity.
  - destruct (is_digit c).
    + destruct (span_digits s) as [ds' r'] eqn:Hsp. injection Hs as <- <-.
      cbn [length]. rewrite (IH ds' r' eq_refl). reflexivity.
    + injection Hs as <- <-. reflexivity.
Qed.


Lemma scan_digits1_length (s ds r : list byte) :
  scan_digits1 s = Some (ds, r) -> (length r <= length s)%nat.
Proof.
  unfold scan_digits1. destruct (span_digits s) as [ds' r'] eqn:Hsp.
  apply span_digits_length in Hsp. destruct ds'; [discriminate|].
  intros Hs. injection Hs as <- <-. lia.
Qed.

Lemma scan_int_length (s ds r : list byte) :
  scan_int s = Some (ds, r) -> (length r < length s)%nat.
Proof.
  unfold scan_int. destruct s as [|c s]; [discriminate|].
  destruct (Ascii.eqb c "0"%char).
  - intros Hs. injection Hs as <- <-. cbn [length]. lia.
  - destruct (is_digit c); [|discriminate].
    destruct (span_digits s) as [ds' r'] eqn:Hsp. apply span_digits_length in Hsp.
    intros Hs. injection Hs as <- <-. cbn [length]. lia.
Qed.

Lemma scan_frac_length (s ds r : list byte) :
  scan_frac s = Some (ds, r) -> (length r <= length s)%nat.
Proof.
  unfold scan_frac. destruct s as [|c s].
  - intros Hs. injection Hs as <- <-. lia.
  - destruct (Ascii.eqb c ".").
    + destruct (scan_digits1 s) as [[ds' r']|] eqn:Hd; [|discriminate].
      apply scan_digits1_length in Hd. cbn [mbind option_bind].
      intros Hs. injection Hs as <- <-. cbn [length]. lia.
    + intros Hs. injection Hs as <- <-. lia.
Qed.

Lemma scan_exp_length (s ds r : list byte) :
  scan_exp s = Some (ds, r) -> (length r <= length s)%nat.
Proof.
  unfold scan_exp. destruct s as [|c s].
  - intros Hs. injection Hs as <- <-. lia.
  - destruct (Ascii.eqb c "e" || Ascii.eqb c "E").
    + destruct (scan_sign s) as [sg r1] eqn:Hsg.
      assert (length r1 <= length s)%nat.
      { unfold scan_sign in Hsg. destruct s as [|d s]; [injection Hsg as <- <-; lia|].
        destruct (Ascii.eqb d "+" || Ascii.eqb d "-"); injection Hsg as <- <-;
          cbn [length]; lia. }
      destruct (scan_digits1 r1) as [[ds' r']|] eqn:Hd; [|discriminate].
      apply scan_digits1_length in Hd. cbn [mbind option_bind].
      intros Hs. injection Hs as <- <-. cbn [length]. lia.
    + intros Hs. injection Hs as <- <-. lia.
Qed.

Lemma scan_number_length (s lit r : list byte) :
  scan_number s = Some (lit, r) -> (length r < length s)%nat.
Proof.
  unfold scan_number.
  destruct (match s with
            | c :: r0 => if Ascii.eqb c "-" then ([c], r0) else ([], s)
            | [] => ([], s)
            end) as [m s1] eqn:Hm.
  assert (length s1 <= length s)%nat.
  { destruct s as [|c s]; [injection Hm as <- <-; lia|].
    destruct (Ascii.eqb c "-"); injection Hm as <- <-; cbn [length]; lia. }
  destruct (scan_int s1) as [[i s2]|] eqn:Hi; [|discriminate].
  apply scan_int_length in Hi. cbn [mbind option_bind].
  destruct (scan_frac s2) as [[f s3]|] eqn:Hf; [|discriminate].
  apply scan_frac_length in Hf. cbn [mbind option_bind].
  destruct (scan_exp s3) as [[e s4]|] eqn:He; [|discriminate].
  apply scan_exp_length in He. cbn [mbind option_bind].
  intros Hs. injection Hs as <- <-. lia.
Qed.

(** A string literal is read to its closing quote. *)
Lemma scan_string_length (n : nat) :
  forall s out r, (length s <= n)%nat ->
    scan_string s = Some (out, r) -> (length r < length s)%nat.
Proof.
  induction n as [|n IH]; intros s out r Hn Hs.
  - destruct s; [discriminate|cbn [length] in Hn; lia].
  - destruct s as [|c s]; [discriminate|]. cbn [scan_string] in Hs. cbn [length] in *.
    destruct (Ascii.eqb c "034"); [injection Hs as <- <-; lia|].
    destruct (Ascii.eqb c "\").
    + destruct s as [|e r1]; [discriminate|]. cbn [length] in *.
      destruct (Ascii.eqb e "u").
      * destruct r1 as [|h3 [|h2 [|h1 [|h0 r2]]]]; try discriminate. cbn [length] in *.
        destruct (hex4 h3 h2 h1 h0) as [hi|]; [|discriminate]. cbn [mbind option_bind] in Hs.
        destruct ((55296 <=? hi)%Z && (hi <? 56320)%Z).
        -- destruct (low_surrogate r2) as [[lo ?]|].
           ++ destruct r2 as [|? [|? [|? [|? [|? [|? r3]]]]]]; try discriminate.
              cbn [length] in *.
              destruct (scan_string r3) as [[out' rest]|] eqn:Hr; [|discriminate].
              apply IH in Hr; [|lia]. cbn [mbind option_bind] in Hs.
              injection Hs as <- <-. lia.
           ++ destruct (scan_string r2) as [[out' rest]|] eqn:Hr; [|discriminate].
              apply IH in Hr; [|lia]. cbn [mbind option_bind] in Hs.
              injection Hs as <- <-. lia.
        -- destruct (scan_string r2) as [[out' rest]|] eqn:Hr; [|discriminate].
           apply IH in Hr; [|lia]. cbn [mbind option_bind] in Hs.
           injection Hs as <- <-. lia.
      * destruct (simple_escape e); [|discriminate]. cbn [mbind option_bind] in Hs.
        destruct (scan_string r1) as [[out' rest]|] eqn:Hr; [|discriminate].
        apply IH in Hr; [|lia]. cbn [mbind option_bind] in Hs.
        injection Hs as <- <-. lia.
    + destruct (uint c <? 32)%Z; [discriminate|].
      destruct (scan_string s) as [[out' rest]|] eqn:Hr; [|discriminate].
      apply IH in Hr; [|lia]. cbn [mbind option_bind] in Hs.
      injection Hs as <- <-. lia.
Qed.

Lemma scan_string_shorter (s out r : list byte) :
  scan_string s = Some (out, r) -> (length r < length s)%nat.
Proof. apply (scan_string_length (length s)). lia. Qed.

(** Every value, element list and member list that is read uses up some
    of the text. *)
Lemma parse_consumes (n : nat) :
  (forall s t r, parse_value n s = Some (t, r) -> (length r < length s)%nat)
  /\ (forall s es r, parse_elems n s = Some (es, r) -> (length r < length s)%nat)
  /\ (forall s ms r, parse_members n s = Some (ms, r) -> (length r < length s)%nat).
Proof.
  induction n as [|n (IHv & IHe & IHm)]; [repeat split; discriminate|].
  repeat split.
  - intros s0 t r Hp. cbn [parse_value] in Hp. cbv zeta in Hp.
    pose proof (skip_space_length s0) as Hsk.
    destruct (skip_space s0) as [|c s] eqn:Hs; [discriminate|]. cbn [length] in Hsk.
    destruct (Ascii.eqb c "[").
    { pose proof (skip_space_length s) as Hsk'.
      destruct (skip_space s) as [|c' s'] eqn:Hs'; [discriminate|]. cbn [length] in Hsk'.
      destruct (Ascii.eqb c' "]"); [injection Hp as <- <-; lia|].
      destruct (parse_elems n s) as [[es r'']|] eqn:He; [|discriminate].
      apply IHe in He. cbn [mbind option_bind] in Hp. injection Hp as <- <-. lia. }
    destruct (Ascii.eqb c "{").
    { pose proof (skip_space_length s) as Hsk'.
      destruct (skip_space s) as [|c' s'] eqn:Hs'; [discriminate|]. cbn [length] in Hsk'.
      destruct (Ascii.eqb c' "}"); [injection Hp as <- <-; lia|].
      destruct (parse_members n s) as [[ms r'']|] eqn:He; [|discriminate].
      apply IHm in He. cbn [mbind option_bind] in Hp. injection Hp as <- <-. lia. }
    destruct (Ascii.eqb c "034").
    { destruct (scan_string s) as [[str r']|] eqn:Hstr; [|discriminate].
      apply scan_string_shorter in Hstr. cbn [mbind option_bind] in Hp.
      injection Hp as <- <-. lia. }
    destruct (strip (bytes "null") (c :: s)) as [r1|] eqn:H1.
    { apply strip_length in H1. cbn [length bytes list_ascii_of_string] in H1.
      injection Hp as <- <-. lia. }
    destruct (strip (bytes "true") (c :: s)) as [r2|] eqn:H2.
    { apply strip_length in H2. cbn [length bytes list_ascii_of_string] in H2.
      injection Hp as <- <-. lia. }
    destruct (strip (bytes "false") (c :: s)) as [r3|] eqn:H3.
    { apply strip_length in H3. cbn [length bytes list_ascii_of_string] in H3.
      injection Hp as <- <-. lia. }
    destruct (scan_number (c :: s)) as [[lit r']|] eqn:Hnum; [|discriminate].
    apply scan_number_length in Hnum. cbn [length] in Hnum.
    cbn [mbind option_bind] in Hp. injection Hp as <- <-. lia.
  - intros s es r Hp. cbn [parse_elems] in Hp.
    destruct (parse_value n s) as [[v r0]|] eqn:Hv; [|discriminate].
    apply IHv in Hv. cbn [mbind option_bind] in Hp.
    pose proof (skip_space_length r0) as Hsk.
    destruct (skip_space r0) as [|c r'] eqn:Hs; [discriminate|]. cbn [length] in Hsk.
    destruct (Ascii.eqb c ",").
    + destruct (parse_elems n r') as [[vs r'']|] eqn:He; [|discriminate].
      apply IHe in He. cbn [mbind option_bind] in Hp. injection Hp as <- <-. lia.
    + destruct (Ascii.eqb c "]"); [|discriminate]. injection Hp as <- <-. lia.
  - intros s ms r Hp. cbn [parse_members] in Hp.
    pose proof (skip_space_length s) as Hsk.
    destruct (skip_space s) as [|q r0] eqn:Hs; [discriminate|]. cbn [length] in Hsk.
    destruct (Ascii.eqb q "034"); [|discriminate].
    destruct (scan_string r0) as [[key r1]|] eqn:Hkey; [|discriminate].
    apply scan_string_shorter in Hkey. cbn [mbind option_bind] in Hp.
    pose proof (skip_space_length r1) as Hsk1.
    destruct (skip_space r1) as [|c r2] eqn:Hs1; [discriminate|]. cbn [length] in Hsk1.
    destruct (Ascii.eqb c ":"); [|discriminate].
    destruct (parse_value n r2) as [[v r3]|] eqn:Hv; [|discriminate].
    apply IHv in Hv. cbn [mbind option_bind] in Hp.
    pose proof (skip_space_length r3) as Hsk3.
    destruct (skip_space r3) as [|c' r4] eqn:Hs3; [discriminate|]. cbn [length] in Hsk3.
    destruct (Ascii.eqb c' ",").
    + destruct (parse_members n r4) as [[ms' r5]|] eqn:Hm; [|discriminate].
      apply IHm in Hm. cbn [mbind option_bind] in Hp. injection Hp as <- <-. lia.
    + destruct (Ascii.eqb c' "}"); [|discriminate]. injection Hp as <- <-. lia.
Qed.

(** From twice the length of the text on, more fuel changes nothing: a
    text that is refused is refused for its syntax. *)
Lemma parse_fuel_stable (n : nat) :
  (forall s m, (2 * length s + 2 <= n)%nat -> (n <= m)%nat ->
     parse_value n s = parse_value m s)
  /\ (forall s m, (2 * length s + 3 <= n)%nat -> (n <= m)%nat ->
     parse_elems n s = parse_elems m s)
  /\ (forall s m, (2 * length s + 3 <= n)%nat -> (n <= m)%nat ->
     parse_members n s = parse_members m s).
Proof.
  induction n as [|n (IHv & IHe & IHm)]; [repeat split; intros; lia|].
  repeat split.
  - intros s0 [|m] Hn Hm; [lia|]. cbn [parse_value]. cbv zeta.
    pose proof (skip_space_length s0) as Hsk.
    destruct (skip_space s0) as [|c s] eqn:Hs; [reflexivity|]. cbn [length] in Hsk.
    rewrite (IHe s m), (IHm s m) by lia. reflexivity.
  - intros s [|m] Hn Hm; [lia|]. cbn [parse_elems].
    rewrite (IHv s m) by lia.
    destruct (parse_value m s) as [[v r0]|] eqn:Hv; [|reflexivity].
    apply parse_consumes in Hv. cbn [mbind option_bind].
    pose proof (skip_space_length r0) as Hsk.
    destruct (skip_space r0) as [|c r'] eqn:Hs; [reflexivity|]. cbn [length] in Hsk.
    rewrite (IHe r' m) by lia. reflexivity.
  - intros s [|m] Hn Hm; [lia|]. cbn [parse_members].
    pose proof (skip_space_length s) as Hsk.
    destruct (skip_space s) as [|q r0] eqn:Hs; [reflexivity|]. cbn [length] in Hsk.
    destruct (Ascii.eqb q "034"); [|reflexivity].
    destruct (scan_string r0) as [[key r1]|] eqn:Hkey; [|reflexivity].
    apply scan_string_shorter in Hkey. cbn [mbind option_bind].
    pose proof (skip_space_length r1) as Hsk1.
    destruct (skip_space r1) as [|c r2] eqn:Hs1; [reflexivity|]. cbn [length] in Hsk1.
    destruct (Ascii.eqb c ":"); [|reflexivity].
    rewrite (IHv r2 m) by lia.
    destruct (parse_value m r2) as [[v r3]|] eqn:Hv; [|reflexivity].
    apply parse_consumes in Hv. cbn [mbind option_bind].
    pose proof (skip_space_length r3) as Hsk3.
    destruct (skip_space r3) as [|c' r4] eqn:Hs3; [reflexivity|]. cbn [length] in Hsk3.
    rewrite (IHm r4 m) by lia. reflexivity.
Qed.

(** The fuel [parse] gives is enough: no larger fuel reads more. *)
Lemma parse_fuel_enough (text : string) (m : nat) :
  (2 * length (bytes text) + 2 <= m)%nat ->
  parse_value m (bytes text) = parse_value (2 * length (bytes text) + 2) (bytes text).
Proof.
  intros Hm. symmetry. apply parse_fuel_stable; lia.
Qed.

End JsonFuel.

(** ** base64 *)

Lemma list_ind3 {A} (P : list A -> Prop) :
  P [] -> (forall a, P [a]) -> (forall a b, P [a; b]) ->
  (forall a b c l, P l -> P (a :: b :: c :: l)) ->
  forall l, P l.
Proof.
  intros H0 H1 H2 H3.
  fix IH 1. intros [|a [|b [|c l]]];
    [apply H0 | apply H1 | apply H2 | apply H3, IH].
Qed.

Lemma lor_add a b k : 0 <= k -> 0 <= b < 2 ^ k -> a mod 2 ^ k = 0 -> Z.lor a b = a + b.
Proof.
  intros Hk Hb Ha. symmetry. apply Z.add_nocarry_lor.
  apply Z.bits_inj'. intros n Hn. rewrite Z.land_spec, Z.bits_0.
  destruct (Z.lt_ge_cases n k) as [Hlt|Hge].
  - rewrite <- (Z.mod_pow2_bits_low a k n) by lia. rewrite Ha, Z.bits_0. reflexivity.
  - destruct (Z.eq_dec b 0) as [->|Hb0]; [rewrite Z.bits_0; apply andb_false_r|].
    rewrite (Z.bits_above_log2 b n); [apply andb_false_r|lia|].
    apply Z.lt_le_trans with k; [|lia]. apply Z.log2_lt_pow2; lia.
Qed.

Ltac pow2 :=
  repeat match goal with
  | |- context [2 ^ ?k] =>
      let v := eval vm_compute in (2 ^ k) in change (2 ^ k) with v
  | H : context [2 ^ ?k] |- _ =>
      let v := eval vm_compute in (2 ^ k) in change (2 ^ k) with v in H
  end.

Ltac arith := pow2; Z.div_mod_to_equations; lia.

(** Disjoint [Z.lor]s become sums, innermost first. *)
Ltac lor_to_add :=
  repeat match goal with
  | |- context [Z.lor ?a ?b] =>
      lazymatch a with context [Z.lor _ _] => fail | _ => idtac end;
      lazymatch b with context [Z.lor _ _] => fail | _ => idtac end;
      first [ rewrite (lor_add a b 6) by arith
            | rewrite (lor_add a b 8) by arith
            | rewrite (lor_add a b 12) by arith
            | rewrite (lor_add a b 16) by arith
            | rewrite (lor_add a b 18) by arith ]
  end.

Ltac to_arith :=
  change 63 with (Z.ones 6) in *; change 255 with (Z.ones 8) in *;
  rewrite ?Z.land_ones by lia;
  rewrite ?Z.shiftr_div_pow2, ?Z.shiftl_mul_pow2 by lia;
  pow2; lor_to_add.

Lemma uint_range (b : byte) : 0 <= uint b < 256.
Proof.
  unfold uint. pose proof (N_ascii_bounded b). lia.
Qed.

Lemma byte_of_uint (v : Z) (b : byte) : Z.land v 255 = uint b -> byte_of v = b.
Proof.
  unfold byte_of, uint. intros ->. rewrite N2Z.id. apply ascii_N_embedding.
Qed.

Lemma sextet_range (v : Z) : 0 <= Z.land v 63 < 64.
Proof.
  change 63 with (Z.ones 6). rewrite Z.land_ones by lia. apply Z.mod_pos_bound. lia.
Qed.

Section Base64Roundtrip.

Variable enc : base64.Encoding.
Variable p : byte.

Hypothesis decode_encode_at : forall i, 0 <= i < 64 ->
  base64.decodeMap enc (base64.encode_at enc i) = Some i.
Hypothesis pad_char : base64.padChar enc = Some p.
Hypothesis pad_outside : base64.decodeMap enc p = None.
Hypothesis no_newline : forall i, 0 <= i < 64 ->
  base64.is_newline (base64.encode_at enc i) = false.
Hypothesis pad_no_newline : base64.is_newline p = false.

Lemma is_pad_p : base64.is_pad enc p = true.
Proof.
  unfold base64.is_pad. rewrite pad_char. apply Ascii.eqb_refl.
Qed.

Lemma quantum1 (b0 : byte) :
  let val := Z.shiftl (uint b0) 16 in
  let s0 := Z.land (Z.shiftr val 18) 63 in
  let s1 := Z.land (Z.shiftr val 12) 63 in
  base64.quantum_bytes (Z.lor (Z.shiftl s0 18) (Z.shiftl s1 12)) 1 = [b0].
Proof.
  pose proof (uint_range b0) as H0. cbv zeta. unfold base64.quantum_bytes. simpl take.
  f_equal. apply byte_of_uint. to_arith. arith.
Qed.

Lemma quantum2 (b0 b1 : byte) :
  let val := Z.lor (Z.shiftl (uint b0) 16) (Z.shiftl (uint b1) 8) in
  let s0 := Z.land (Z.shiftr val 18) 63 in
  let s1 := Z.land (Z.shiftr val 12) 63 in
  let s2 := Z.land (Z.shiftr val 6) 63 in
  base64.quantum_bytes (Z.lor (Z.lor (Z.shiftl s0 18) (Z.shiftl s1 12)) (Z.shiftl s2 6)) 2
  = [b0; b1].
Proof.
  pose proof (uint_range b0) as H0. pose proof (uint_range b1) as H1.
  cbv zeta. unfold base64.quantum_bytes. simpl take.
  f_equal; [|f_equal]; apply byte_of_uint; to_arith; arith.
Qed.

Lemma quantum3 (b0 b1 b2 : byte) :
  let val := Z.lor (Z.lor (Z.shiftl (uint b0) 16) (Z.shiftl (uint b1) 8)) (uint b2) in
  let s0 := Z.land (Z.shiftr val 18) 63 in
  let s1 := Z.land (Z.shiftr val 12) 63 in
  let s2 := Z.land (Z.shiftr val 6) 63 in
  let s3 := Z.land val 63 in
  base64.quantum_bytes
    (Z.lor (Z.lor (Z.lor (Z.shiftl s0 18) (Z.shiftl s1 12)) (Z.shiftl s2 6)) s3) 3
  = [b0; b1; b2].
Proof.
  pose proof (uint_range b0) as H0. pose proof (uint_range b1) as H1.
  pose proof (uint_range b2) as H2.
  cbv zeta. unfold base64.quantum_bytes. simpl take.
  f_equal; [|f_equal; [|f_equal]]; apply byte_of_uint; to_arith; arith.
Qed.

(** Decoding the encoding of [l] quantum by quantum gives [l] back. *)
Lemma decode_quanta_Encode (l : list byte) :
  base64.decode_quanta enc (base64.Encode enc l) = Some l.
Proof.
  induction l as [|b0|b0 b1|b0 b1 b2 l IH] using list_ind3.
  - reflexivity.
  - cbn [base64.Encode base64.decode_quanta]. unfold base64.pad. rewrite pad_char.
    cbn [repeat]. cbn [base64.decode_quanta].
    rewrite !decode_encode_at by apply sextet_range.
    cbn [mbind option_bind]. rewrite pad_outside, is_pad_p.
    cbn [andb]. rewrite bool_decide_eq_true_2 by reflexivity.
    f_equal. apply quantum1.
  - cbn [base64.Encode base64.decode_quanta]. unfold base64.pad. rewrite pad_char.
    cbn [repeat]. cbn [base64.decode_quanta].
    rewrite !decode_encode_at by apply sextet_range.
    cbn [mbind option_bind]. rewrite pad_outside, is_pad_p.
    cbn [andb]. rewrite bool_decide_eq_true_2 by reflexivity.
    f_equal. apply quantum2.
  - cbn [base64.Encode base64.decode_quanta].
    rewrite !decode_encode_at by apply sextet_range.
    cbn [mbind option_bind]. rewrite IH. cbn [mbind option_bind].
    f_equal. rewrite quantum3. reflexivity.
Qed.

(** The encoder writes no line break, so [DecodeString] skips nothing. *)
Lemma Encode_no_newline (l : list byte) :
  filter (fun c => base64.is_newline c = false) (base64.Encode enc l)
  = base64.Encode enc l.
Proof.
  induction l as [|b0|b0 b1|b0 b1 b2 l IH] using list_ind3;
    cbn [base64.Encode]; unfold base64.pad; rewrite ?pad_char; cbn [repeat];
    rewrite ?filter_cons, ?filter_nil;
    repeat (rewrite decide_True by (first [apply no_newline, sextet_range
                                         | apply pad_no_newline]));
    rewrite ?IH; reflexivity.
Qed.

Lemma DecodeString_EncodeToString (l : list byte) :
  base64.DecodeString enc (base64.EncodeToString enc l) = Some l.
Proof.
  unfold base64.DecodeString, base64.EncodeToString, bytes, string_of.
  rewrite list_ascii_of_string_of_list_ascii, Encode_no_newline.
  apply decode_quanta_Encode.
Qed.

End Base64Roundtrip.

(** A check of the 64 indices of an alphabet, run once. *)
Lemma below64 (P : Z -> bool) :
  forallb P (map Z.of_nat (seq 0 64)) = true ->
  forall i, 0 <= i < 64 -> P i = true.
Proof.
  intros Hall i Hi. rewrite forallb_forall in Hall. apply Hall.
  apply in_map_iff. exists (Z.to_nat i). split; [lia|].
  apply in_seq. lia.
Qed.

Lemma StdEncoding_decodeMap i : 0 <= i < 64 ->
  base64.decodeMap base64.StdEncoding (base64.encode_at base64.StdEncoding i) = Some i.
Proof.
  intros Hi.
  apply (below64 (fun i => bool_decide
    (base64.decodeMap base64.StdEncoding (base64.encode_at base64.StdEncoding i) = Some i)))
    in Hi; [|vm_compute; reflexivity].
  apply bool_decide_eq_true_1 in Hi. exact Hi.
Qed.

Lemma URLEncoding_decodeMap i : 0 <= i < 64 ->
  base64.decodeMap base64.URLEncoding (base64.encode_at base64.URLEncoding i) = Some i.
Proof.
  intros Hi.
  apply (below64 (fun i => bool_decide
    (base64.decodeMap base64.URLEncoding (base64.encode_at base64.URLEncoding i) = Some i)))
    in Hi; [|vm_compute; reflexivity].
  apply bool_decide_eq_true_1 in Hi. exact Hi.
Qed.

Lemma StdEncoding_no_newline i : 0 <= i < 64 ->
  base64.is_newline (base64.encode_at base64.StdEncoding i) = false.
Proof.
  intros Hi.
  apply (below64 (fun i => negb
    (base64.is_newline (base64.encode_at base64.StdEncoding i))))
    in Hi; [|vm_compute; reflexivity].
  apply negb_true_iff in Hi. exact Hi.
Qed.

(** Standard base64 decoding inverts standard base64 encoding. *)
Lemma StdEncoding_roundtrip (l : list byte) :
  base64.DecodeString base64.StdEncoding (base64.EncodeToString base64.StdEncoding l)
  = Some l.
Proof.
  apply (DecodeString_EncodeToString base64.StdEncoding base64.StdPadding).
  - apply StdEncoding_decodeMap.
  - reflexivity.
  - reflexivity.
  - apply StdEncoding_no_newline.
  - reflexivity.
Qed.

(** The two alphabets agree except where the standard one has [+] or [/]. *)
Lemma alphabets_differ i : 0 <= i < 64 ->
  base64.encode_at base64.StdEncoding i = "+"%char
  \/ base64.encode_at base64.StdEncoding i = "/"%char ->
  base64.encode_at base64.StdEncoding i <> base64.encode_at base64.URLEncoding i.
Proof.
  intros Hi.
  apply (below64 (fun i =>
    let c := base64.encode_at base64.StdEncoding i in
    implb (Ascii.eqb c "+"%char || Ascii.eqb c "/"%char)
          (negb (Ascii.eqb c (base64.encode_at base64.URLEncoding i)))))
    in Hi; [|vm_compute; reflexivity].
  cbv zeta in Hi. intros Hc Heq.
  rewrite <- Heq, Ascii.eqb_refl in Hi. cbn [negb] in Hi.
  destruct Hc as [Hc|Hc]; rewrite Hc in Hi; discriminate Hi.
Qed.

(** The URL alphabet has neither [+] nor [/]. *)
Lemma URLEncoding_alphabet i : 0 <= i < 64 ->
  base64.encode_at base64.URLEncoding i <> "+"%char
  /\ base64.encode_at base64.URLEncoding i <> "/"%char.
Proof.
  intros Hi.
  apply (below64 (fun i =>
    let c := base64.encode_at base64.URLEncoding i in
    negb (Ascii.eqb c "+"%char) && negb (Ascii.eqb c "/"%char)))
    in Hi; [|vm_compute; reflexivity].
  cbv zeta in Hi. apply andb_true_iff in Hi. destruct Hi as [H1 H2].
  apply negb_true_iff, Ascii.eqb_neq in H1, H2. auto.
Qed.

Lemma alphabets_agree i : 0 <= i < 64 ->
  base64.encode_at base64.URLEncoding i = base64.encode_at base64.StdEncoding i ->
  "+"%char <> base64.encode_at base64.StdEncoding i
  /\ "/"%char <> base64.encode_at base64.StdEncoding i.
Proof.
  intros Hi Heq. split; intros Hc;
    apply (alphabets_differ i Hi); auto.
Qed.

(** Where the standard encoding of [l] has a [+] or a [/], the URL
    encoding of [l] is another text. *)
Lemma Encode_URL_differs (l : list byte) :
  "+"%char ∈ base64.Encode base64.StdEncoding l
  \/ "/"%char ∈ base64.Encode base64.StdEncoding l ->
  base64.Encode base64.URLEncoding l <> base64.Encode base64.StdEncoding l.
Proof.
  induction l as [|b0|b0 b1|b0 b1 b2 l IH] using list_ind3;
    cbn [base64.Encode]; unfold base64.pad; cbn [base64.padChar
      base64.StdEncoding base64.URLEncoding repeat];
    rewrite ?elem_of_cons, ?elem_of_nil; intros Hin Heq;
    repeat match goal with
    | H : _ :: _ = _ :: _ |- _ => injection H as ? H
    end;
    repeat match goal with
    | H : base64.encode_at _ ?i = base64.encode_at _ ?i |- _ =>
        apply alphabets_agree in H; [destruct H | apply sextet_range]
    end;
    intuition (try discriminate; eauto).
Qed.

(** ** The transport *)

Lemma executeHTTP_run (r : Request) (w : World) :
  executeHTTP r w
  = (respond w r,
     mkWorld (respond w) (files w) (trace w ++ [Sent r]) (open_files w) (next_fd w)).
Proof. reflexivity. Qed.

Lemma sent_app (w : World) (es : list Event) :
  omap (fun e => match e with Sent r => Some r | _ => None end) (trace w ++ es)
  = sent w ++ omap (fun e => match e with Sent r => Some r | _ => None end) es.
Proof. unfold sent. apply omap_app. Qed.

(** ** Pasteboard payloads *)

Section Pasteboard.

Context `{UrlLib}.

(** What [SetPasteboard] does: one POST of [{contentType, content}], and
    the error of the transport as the result. *)
Lemma SetPasteboard_run (s : Session) (contentType : WDAContentType)
    (encodedContent : string) (w : World) :
  let r := mkRequest POST "SetPasteboard"
             (urlJoin (sessionURL s) ["/wda/setPasteboard"])
             (Some (<["content" := VString encodedContent]>
                      (<["contentType" := VString contentType]> ∅))) in
  SetPasteboard s contentType encodedContent w
  = (snd (respond w r),
     mkWorld (respond w) (files w) (trace w ++ [Sent r]) (open_files w) (next_fd w)).
Proof.
  cbv zeta. unfold SetPasteboard, internalPost.
  unfold mbind, M_bind. rewrite executeHTTP_run.
  destruct (respond w _) as [resp err]. reflexivity.
Qed.

Lemma SetPasteboard_last_content (s : Session) (contentType : WDAContentType)
    (encodedContent : string) (w : World) :
  last_content (snd (SetPasteboard s contentType encodedContent w))
  = Some (VString encodedContent).
Proof.
  rewrite SetPasteboard_run. cbn [snd]. unfold last_content, sent. cbn [trace].
  rewrite omap_app. cbn [omap list_omap]. rewrite last_snoc. cbn [mbind option_bind body].
  apply lookup_insert_eq.
Qed.

(** C6. For every string [content], [SetPasteboardForPlaintext content]
    sends a payload whose [content] field is the standard base64 encoding
    of [content]; decoding that field with standard base64 gives back
    exactly [content]. *)
Theorem SetPasteboardForPlaintext_roundtrip (s : Session) (content : string) (w : World) :
  exists encoded,
    last_content (snd (SetPasteboardForPlaintext s content w)) = Some (VString encoded)
    /\ encoded = base64.EncodeToString base64.StdEncoding (bytes content)
    /\ string_of <$> base64.DecodeString base64.StdEncoding encoded = Some content.
Proof.
  exists (base64.EncodeToString base64.StdEncoding (bytes content)).
  split; [|split].
  - unfold SetPasteboardForPlaintext. apply SetPasteboard_last_content.
  - reflexivity.
  - rewrite StdEncoding_roundtrip. cbn [fmap option_fmap option_map].
    f_equal. apply string_of_list_ascii_of_string.
Qed.

End Pasteboard.

Lemma Encode_URL_alphabet (l : list byte) :
  ("+"%char ∉ base64.Encode base64.URLEncoding l)
  /\ ("/"%char ∉ base64.Encode base64.URLEncoding l).
Proof.
  induction l as [|b0|b0 b1|b0 b1 b2 l [IH1 IH2]] using list_ind3;
    cbn [base64.Encode]; unfold base64.pad; cbn [base64.padChar
      base64.URLEncoding repeat];
    rewrite ?not_elem_of_cons; repeat split;
    try apply not_elem_of_nil; try discriminate; try assumption;
    apply not_eq_sym, URLEncoding_alphabet, sextet_range.
Qed.

Lemma bytes_EncodeToString (enc : base64.Encoding) (l : list byte) :
  bytes (base64.EncodeToString enc l) = base64.Encode enc l.
Proof.
  unfold bytes, base64.EncodeToString, string_of.
  apply list_ascii_of_string_of_list_ascii.
Qed.

(** A descriptor that was opened and closed is not open, and nothing else
    was opened. *)
Lemma closed_descriptor (n : nat) (open : gset nat) :
  (n ∉ ({[n]} ∪ open) ∖ {[n]}) /\ ({[n]} ∪ open) ∖ {[n]} ⊆ open.
Proof.
  split.
  - intros Hin. apply elem_of_difference in Hin as [_ Hn].
    apply Hn, elem_of_singleton. reflexivity.
  - intros x Hx. apply elem_of_difference in Hx as [Hx Hn].
    apply elem_of_union in Hx as [Hx|Hx]; [contradiction|exact Hx].
Qed.

Section PasteboardImage.

Context `{UrlLib}.

(** The three ways [SetPasteboardForImage] runs: the file does not open;
    it opens and the read fails; it is read and posted. *)
Lemma SetPasteboardForImage_run (s : Session) (filename : string) (w : World) :
  SetPasteboardForImage s filename w
  = match files w filename with
    | None => (Some (IOError ("open " +:+ filename)), w)
    | Some (data, rerr) =>
        let f := mkFile (next_fd w) filename in
        let closed := ({[next_fd w]} ∪ open_files w) ∖ {[next_fd w]} in
        match rerr with
        | Some msg =>
            (Some (IOError msg),
             mkWorld (respond w) (files w) (trace w ++ [Opened f; Read f; Closed f])
                     closed (S (next_fd w)))
        | None =>
            let r := mkRequest POST "SetPasteboard"
                       (urlJoin (sessionURL s) ["/wda/setPasteboard"])
                       (Some (<["content" :=
                                 VString (base64.EncodeToString base64.StdEncoding data)]>
                                (<["contentType" := VString WDAContentTypeImage]> ∅))) in
            (snd (respond w r),
             mkWorld (respond w) (files w)
                     (trace w ++ [Opened f; Read f; Sent r; Closed f])
                     closed (S (next_fd w)))
        end
    end.
Proof.
  unfold SetPasteboardForImage, mbind, M_bind, os_Open.
  destruct (files w filename) as [[data [msg|]]|] eqn:Hfile; [| |reflexivity].
  - unfold defer, ioutil_ReadAll, mbind, M_bind, log, readFile, File_Close, mret, M_ret.
    cbn [files path trace respond open_files next_fd fd]. rewrite Hfile.
    cbv zeta. cbn [files path trace respond open_files next_fd fd].
    rewrite <- !app_assoc. reflexivity.
  - unfold defer, ioutil_ReadAll, mbind, M_bind, log, readFile, File_Close, mret, M_ret.
    cbn [files path trace respond open_files next_fd fd]. rewrite Hfile.
    rewrite SetPasteboard_run.
    cbn [files path trace respond open_files next_fd fd]. cbv zeta.
    rewrite <- !app_assoc. reflexivity.
Qed.

(** C8. For every filename, [SetPasteboardForImage filename] fails with an
    [IOError] when the file cannot be opened or read, and on every exit
    path after the file was opened (read failure, or the post, whatever its
    outcome) the handle is closed before the function returns: [Closed] is
    the last event of the run and the descriptor is not left open. When the
    file cannot be opened there is no handle and the world is unchanged. *)
Theorem SetPasteboardForImage_closes_file (s : Session) (filename : string) (w : World) :
  let err := fst (SetPasteboardForImage s filename w) in
  let w' := snd (SetPasteboardForImage s filename w) in
  let f := mkFile (next_fd w) filename in
  match files w filename with
  | None => err = Some (IOError ("open " +:+ filename)) /\ w' = w
  | Some (data, Some msg) =>
      err = Some (IOError msg)
      /\ trace w' = trace w ++ [Opened f; Read f; Closed f]
      /\ (fd f ∉ open_files w') /\ open_files w' ⊆ open_files w
  | Some (data, None) =>
      exists r,
        err = snd (respond w r)
        /\ trace w' = trace w ++ [Opened f; Read f; Sent r; Closed f]
        /\ (fd f ∉ open_files w') /\ open_files w' ⊆ open_files w
  end.
Proof.
  cbv zeta. rewrite SetPasteboardForImage_run.
  destruct (closed_descriptor (next_fd w) (open_files w)) as [Hout Hsub].
  destruct (files w filename) as [[data [msg|]]|].
  - cbn [fst snd trace open_files fd]. repeat split; assumption.
  - eexists. cbn [fst snd trace open_files fd]. repeat split; assumption.
  - split; reflexivity.
Qed.

(** C9. For every input, [SetPasteboardForUrl] sends the base64 encoding
    of the input in the URL-safe alphabet, which has neither [+] nor [/],
    while [SetPasteboardForPlaintext] and [SetPasteboardForImage] send the
    encoding in the standard alphabet; so where the standard encoding of
    the input has a [+] or a [/], the payload of the URL wrapper differs
    from it. *)
Theorem SetPasteboardForUrl_alphabet (s : Session) (input : string) (w : World) :
  let std := base64.EncodeToString base64.StdEncoding (bytes input) in
  let safe := base64.EncodeToString base64.URLEncoding (bytes input) in
  last_content (snd (SetPasteboardForUrl s input w)) = Some (VString safe)
  /\ last_content (snd (SetPasteboardForPlaintext s input w)) = Some (VString std)
  /\ (forall filename, files w filename = Some (bytes input, None) ->
      last_content (snd (SetPasteboardForImage s filename w)) = Some (VString std))
  /\ ("+"%char ∉ bytes safe) /\ ("/"%char ∉ bytes safe)
  /\ ("+"%char ∈ bytes std \/ "/"%char ∈ bytes std -> safe <> std).
Proof.
  cbv zeta. split; [|split; [|split; [|split; [|split]]]].
  - apply SetPasteboard_last_content.
  - apply SetPasteboard_last_content.
  - intros filename Hfile. rewrite SetPasteboardForImage_run, Hfile.
    cbn [snd]. unfold last_content, sent. cbn [trace].
    rewrite omap_app. cbn [omap list_omap]. rewrite last_snoc.
    cbn [mbind option_bind body]. apply lookup_insert_eq.
  - rewrite bytes_EncodeToString. apply Encode_URL_alphabet.
  - rewrite bytes_EncodeToString. apply Encode_URL_alphabet.
  - rewrite bytes_EncodeToString. intros Hin Heq.
    apply (Encode_URL_differs (bytes input) Hin).
    rewrite <- !bytes_EncodeToString. f_equal. exact Heq.
Qed.

End PasteboardImage.

(** ** Calls that post a body *)

Section Calls.

Context `{UrlLib}.

(** A method that posts and returns the error of the transport alone. *)
Lemma post_then_err (actionName url : string) (b : wdaBody) (w : World) :
  ('(_, err) ← internalPost actionName url b; mret err) w
  = (snd (respond w (mkRequest POST actionName url (Some b))),
     after w (mkRequest POST actionName url (Some b))).
Proof.
  unfold internalPost, mbind, M_bind. rewrite executeHTTP_run.
  destruct (respond w _) as [resp err]. reflexivity.
Qed.

(** A method that posts and then looks at the embedded error message. *)
Lemma post_then_getErrMsg (actionName url : string) (b : wdaBody) (w : World) :
  ('(wdaResp, err) ← internalPost actionName url b;
   match err with
   | Some _ => mret err
   | None => mret (getErrMsg wdaResp)
   end) w
  = (match snd (respond w (mkRequest POST actionName url (Some b))) with
     | Some e => Some e
     | None => getErrMsg (fst (respond w (mkRequest POST actionName url (Some b))))
     end,
     after w (mkRequest POST actionName url (Some b))).
Proof.
  unfold internalPost, mbind, M_bind. rewrite executeHTTP_run.
  destruct (respond w _) as [resp [e|]]; reflexivity.
Qed.

Lemma Tap_run (s : Session) (x y : Z) (w : World) :
  let r := mkRequest POST "Tap" (urlJoin (sessionURL s) ["wda"; "tap"; "0"])
             (Some (setXY newWdaBody x y)) in
  Tap s x y w
  = (match snd (respond w r) with
     | Some e => Some e
     | None => getErrMsg (fst (respond w r))
     end, after w r).
Proof. apply post_then_getErrMsg. Qed.

Lemma DoubleTap_run (s : Session) (x y : Z) (w : World) :
  let r := mkRequest POST "DoubleTap" (urlJoin (sessionURL s) ["wda"; "doubleTap"])
             (Some (setXY newWdaBody x y)) in
  DoubleTap s x y w = (snd (respond w r), after w r).
Proof. apply post_then_err. Qed.

Lemma TouchAndHold_run (s : Session) (x y : Z) (duration : list json.float32) (w : World) :
  let r := mkRequest POST "TouchAndHold" (urlJoin (sessionURL s) ["wda"; "touchAndHold"])
             (Some (set (setXY newWdaBody x y) "duration"
                        (VFloat (default "1.0" (head duration))))) in
  TouchAndHold s x y duration w = (snd (respond w r), after w r).
Proof. destruct duration; apply post_then_err. Qed.

Lemma AppTerminate_run (s : Session) (bundleId : string) (w : World) :
  let r := mkRequest POST "AppTerminate" (urlJoin (sessionURL s) ["/wda/apps/terminate"])
             (Some (setBundleID newWdaBody bundleId)) in
  AppTerminate s bundleId w = (snd (respond w r), after w r).
Proof. apply post_then_err. Qed.

Lemma PressButton_run (s : Session) (name : WDADeviceButtonName) (w : World) :
  let r := mkRequest POST "PressButton" (urlJoin (sessionURL s) ["/wda/pressButton"])
             (Some (set newWdaBody "name" (VString name))) in
  PressButton s name w = (snd (respond w r), after w r).
Proof. apply post_then_err. Qed.

(** The launch body of an option whose only field is
    [shouldWaitForQuiescence]. *)
Lemma setAppLaunchOption_singleton (wb : wdaBody) (k : string) (v : Value) :
  setAppLaunchOption wb {[k := v]} = <[k := v]> wb.
Proof.
  unfold setAppLaunchOption. rewrite map_fold_singleton. reflexivity.
Qed.

Lemma only_field (opt : WDAAppLaunchOption) (k : string) (v : Value) :
  opt !! k = Some v -> dom opt = {[k]} -> opt = {[k := v]}.
Proof.
  intros Hk Hdom. apply map_eq. intros i.
  destruct (decide (i = k)) as [->|Hne].
  - rewrite Hk, lookup_singleton_eq. reflexivity.
  - rewrite lookup_singleton_ne by congruence.
    apply not_elem_of_dom. rewrite Hdom. set_solver.
Qed.

(** C3. For every bundle id, [AppLaunch bundleId] without an option runs
    as [AppLaunch bundleId opt] does for an option [opt] whose only field
    is [shouldWaitForQuiescence], set to true (so without [arguments] and
    [environment]): the same request with the same body,
    [{bundleId, shouldWaitForQuiescence: true}], and the same result. *)
Theorem AppLaunch_default_option (s : Session) (bundleId : string)
    (opt : WDAAppLaunchOption) (rest : list WDAAppLaunchOption) (w : World) :
  opt !! "shouldWaitForQuiescence" = Some (VBool true) ->
  dom opt = {["shouldWaitForQuiescence"]} ->
  AppLaunch s bundleId [] w = AppLaunch s bundleId (opt :: rest) w
  /\ sent (snd (AppLaunch s bundleId [] w))
     = sent w ++ [mkRequest POST "AppLaunch"
                    (urlJoin (sessionURL s) ["/wda/apps/launch"])
                    (Some (<["shouldWaitForQuiescence" := VBool true]>
                             (<["bundleId" := VString bundleId]> ∅)))].
Proof.
  intros Hq Hdom. apply only_field in Hq; [|exact Hdom]. subst opt.
  unfold AppLaunch. cbn [length head default]. cbv zeta.
  rewrite bool_decide_eq_true_2 by reflexivity.
  rewrite bool_decide_eq_false_2 by discriminate.
  cbn [head default].
  unfold SetShouldWaitForQuiescence, NewWDAAppLaunchOption, set.
  unfold id. rewrite insert_empty, !setAppLaunchOption_singleton.
  split; [reflexivity|].
  rewrite post_then_err. cbn [snd]. unfold sent, after. cbn [trace].
  rewrite omap_app. reflexivity.
Qed.

(** C7. For every outcome of [Screen]: [Scale] returns the [Scale] field
    of the result of [Screen] and [StatusBarSize] returns its
    [StatusBarSize] field, each with the error of [Screen] as it is, also
    when [Screen] fails; the wrappers do nothing else to the world. *)
Theorem Scale_StatusBarSize_project (s : Session) (w : World) :
  Scale s w
  = (WDAScreen.Scale (fst (fst (Screen s w))), snd (fst (Screen s w)), snd (Screen s w))
  /\ StatusBarSize s w
     = (WDAScreen.StatusBarSize (fst (fst (Screen s w))), snd (fst (Screen s w)),
        snd (Screen s w)).
Proof.
  unfold Scale, StatusBarSize, mbind, M_bind.
  destruct (Screen s w) as [[screen err] w']. split; reflexivity.
Qed.

(** C10. Whenever the transport call of [AppState] fails, [AppState]
    returns the state [-1] together with that error; [-1] is none of the
    three defined state codes 1, 2 and 4 and renders as [UNKNOWN]. When the
    transport succeeds, it returns the integer of the response value as it
    is, with no error and no check against the defined codes. *)
Theorem AppState_sentinel (s : Session) (bundleId : string) (w : World)
    (wdaResp : wdaResponse) (err : error) :
  respond w (mkRequest POST "AppState" (urlJoin (sessionURL s) ["/wda/apps/state"])
               (Some (setBundleID newWdaBody bundleId))) = (wdaResp, err) ->
  (forall e, err = Some e -> fst (AppState s bundleId w) = (-1, Some e))
  /\ (err = nil -> fst (AppState s bundleId w) = (gjson.Int (getValue wdaResp), nil))
  /\ -1 <> WDAAppNotRunning /\ -1 <> WDAAppRunningBack /\ -1 <> WDAAppRunningFront
  /\ WDAAppRunState_String (-1) = "UNKNOWN".
Proof.
  intros Hresp. unfold AppState, internalPost, mbind, M_bind.
  rewrite executeHTTP_run, Hresp.
  split; [|split].
  - intros e ->. reflexivity.
  - intros ->. reflexivity.
  - repeat split; discriminate.
Qed.

End Calls.

(** ** Witnesses on the mock server *)

Lemma prefix_append (u a x : string) :
  String.prefix u a = true -> String.prefix u (a +:+ x) = true.
Proof.
  revert a. induction u as [|c u IH]; intros a Hp;
    [destruct (a +:+ x); reflexivity|].
  destruct a as [|d a]; [discriminate|].
  change (String d a +:+ x) with (String d (a +:+ x)).
  cbn [String.prefix] in *.
  destruct (ascii_dec c d); [|discriminate]. apply IH, Hp.
Qed.

Lemma prefix_refl (u : string) : String.prefix u u = true.
Proof.
  induction u as [|c u IH]; [reflexivity|].
  cbn [String.prefix]. destruct (ascii_dec c c); [exact IH|congruence].
Qed.

Lemma TextUrl_laws : @UrlLaws TextUrl.
Proof.
  split.
  - intros u elems. cbn [URL_String urlJoin TextUrl].
    assert (Hgen : forall acc, String.prefix u acc = true ->
              String.prefix u (fold_left (fun acc e => acc +:+ "/" +:+ e) elems acc) = true).
    { induction elems as [|e elems IH]; intros acc Hacc; [exact Hacc|].
      cbn [fold_left]. apply IH, prefix_append, Hacc. }
    apply Hgen, prefix_refl.
  - intros u elems. eexists. split; reflexivity.
Qed.

Lemma AppLaunch_default_option_witness :
  @AppLaunch TextUrl mockSession "com.apple.Preferences" []
    (mockServer (valueOf "null"))
  = @AppLaunch TextUrl mockSession "com.apple.Preferences"
      [SetShouldWaitForQuiescence NewWDAAppLaunchOption true]
      (mockServer (valueOf "null"))
  /\ sent (snd (@AppLaunch TextUrl mockSession "com.apple.Preferences" []
                  (mockServer (valueOf "null"))))
     = sent (mockServer (valueOf "null"))
       ++ [mkRequest POST "AppLaunch"
             (@urlJoin TextUrl (@sessionURL TextUrl mockSession) ["/wda/apps/launch"])
             (Some (<["shouldWaitForQuiescence" := VBool true]>
                      (<["bundleId" := VString "com.apple.Preferences"]> ∅)))].
Proof.
  apply (@AppLaunch_default_option TextUrl mockSession "com.apple.Preferences"
           (SetShouldWaitForQuiescence NewWDAAppLaunchOption true) []
           (mockServer (valueOf "null"))).
  - reflexivity.
  - vm_compute. reflexivity.
Defined.

Lemma AppState_sentinel_witness :
  (forall e, Some (TransportError "connection refused") = Some e ->
     fst (@AppState TextUrl mockSession "com.apple.Preferences"
            (mockServer (mkResponse None "", Some (TransportError "connection refused"))))
     = (-1, Some e))
  /\ (Some (TransportError "connection refused") = nil ->
      fst (@AppState TextUrl mockSession "com.apple.Preferences"
             (mockServer (mkResponse None "", Some (TransportError "connection refused"))))
      = (gjson.Int (getValue (mkResponse None "")), nil))
  /\ -1 <> WDAAppNotRunning /\ -1 <> WDAAppRunningBack /\ -1 <> WDAAppRunningFront
  /\ WDAAppRunState_String (-1) = "UNKNOWN".
Proof.
  apply (@AppState_sentinel TextUrl mockSession "com.apple.Preferences"
           (mockServer (mkResponse None "", Some (TransportError "connection refused")))).
  reflexivity.
Defined.

(** On a server that reports the state 3, which is no defined code,
    [AppState] returns 3, and it renders as [UNKNOWN]. *)
Example AppState_unvalidated :
  fst (@AppState TextUrl mockSession "com.apple.Preferences" (mockServer (valueOf "3")))
  = (3, nil)
  /\ WDAAppRunState_String 3 = "UNKNOWN".
Proof. split; vm_compute; reflexivity. Qed.

(** C1, where the code departs from it. On a server whose response
    carries the embedded error message [gesture failed] while the transport
    succeeds, [Tap] returns that message as a [ServerError], as every such
    operation should, and [DoubleTap], [TouchAndHold], [AppTerminate],
    [SetPasteboard] and [PressButton], which drop the response, return no
    error. *)
Theorem DoubleTap_drops_server_error :
  let w := mockServer (mkResponse (gjson.Parse "null") "gesture failed", nil) in
  fst (@Tap TextUrl mockSession 10 20 w) = Some (ServerError "gesture failed")
  /\ fst (@DoubleTap TextUrl mockSession 10 20 w) = nil
  /\ fst (@TouchAndHold TextUrl mockSession 10 20 [] w) = nil
  /\ fst (@AppTerminate TextUrl mockSession "com.apple.Preferences" w) = nil
  /\ fst (@SetPasteboard TextUrl mockSession WDAContentTypePlaintext "aGVsbG8=" w) = nil
  /\ fst (@PressButton TextUrl mockSession WDADeviceButtonHome w) = nil.
Proof.
  cbv zeta.
  rewrite Tap_run, DoubleTap_run, TouchAndHold_run, AppTerminate_run,
    SetPasteboard_run, PressButton_run.
  repeat split.
Qed.

(** ** Element handles *)

Lemma fold_left_append {A B} (f : A -> B) (l : list A) (acc : list B) :
  fold_left (fun acc x => acc ++ [f x]) l acc = acc ++ map f l.
Proof.
  revert acc. induction l as [|x l IH]; intros acc; cbn [fold_left map].
  - rewrite app_nil_r. reflexivity.
  - rewrite IH, <- app_assoc. reflexivity.
Qed.

Section Elements.

Context `{UrlLaws}.

(** A handle made from a joined URL lies under the session URL. *)
Lemma joined_under (s : Session) (elems : list string) :
  under (sessionURL s) (mkElement (fst (url_Parse (urlJoin (sessionURL s) elems)))).
Proof.
  destruct (url_Parse_join (sessionURL s) elems) as [v [Hparse Htext]].
  exists v. rewrite Hparse. split; [reflexivity|].
  rewrite Htext. apply urlJoin_prefix.
Qed.

(** C2. For every locator query whose response value is a non-empty
    array, [FindElements] returns without error a non-empty sequence of
    element handles, one for each element of the array, each with a URL
    that has the session's base URL as a prefix; when the response value is
    an empty array, it returns the nil sequence and [ErrNoSuchElement]. *)
Theorem FindElements_array (s : Session) (using_ value : string) (w : World)
    (wdaResp : wdaResponse) (raw : string) (es : list jsontext.Tree) :
  respond w (mkRequest POST "FindElements" (urlJoin (sessionURL s) ["elements"])
               (Some (set (set newWdaBody "using" (VString using_))
                          "value" (VString value)))) = (wdaResp, nil) ->
  getValue wdaResp = Some (jsontext.Arr raw es) ->
  (es = [] -> fst (FindElements s using_ value w) = (None, Some ErrNoSuchElement))
  /\ (es <> [] ->
      exists elements,
        fst (FindElements s using_ value w) = (Some elements, nil)
        /\ elements <> []
        /\ length elements = length es
        /\ Forall (under (sessionURL s)) elements).
Proof.
  intros Hresp Hvalue. unfold FindElements, internalPost, mbind, M_bind.
  rewrite executeHTTP_run, Hresp, Hvalue. cbn [gjson.Array].
  rewrite length_map. split.
  - intros ->. reflexivity.
  - intros Hne. destruct es as [|e es]; [congruence|].
    rewrite bool_decide_eq_false_2 by discriminate.
    rewrite fold_left_append. eexists. split; [reflexivity|].
    split; [discriminate|]. split.
    + rewrite app_nil_l, !length_map. reflexivity.
    + rewrite app_nil_l. apply Forall_forall. intros ele Hin.
      apply list_elem_of_In, in_map_iff in Hin. destruct Hin as [res [<- _]].
      apply joined_under.
Qed.

End Elements.

Lemma FindElements_array_witness :
  let w := mockServer (valueOf "[{'ELEMENT':'A-1'},{'ELEMENT':'B-2'}]") in
  exists raw e1 e2,
    gjson.Parse (dq "[{'ELEMENT':'A-1'},{'ELEMENT':'B-2'}]")
    = Some (jsontext.Arr raw [e1; e2])
    /\ ([e1; e2] = [] ->
        fst (@FindElements TextUrl mockSession "class name" "XCUIElementTypeButton" w)
        = (None, Some ErrNoSuchElement))
    /\ ([e1; e2] <> [] ->
        exists elements,
          fst (@FindElements TextUrl mockSession "class name" "XCUIElementTypeButton" w)
          = (Some elements, nil)
          /\ elements <> []
          /\ length elements = length [e1; e2]
          /\ Forall (@under TextUrl (@sessionURL TextUrl mockSession)) elements).
Proof.
  cbv zeta. eexists. eexists. eexists. split; [vm_compute; reflexivity|].
  eapply (@FindElements_array TextUrl TextUrl_laws mockSession "class name"
           "XCUIElementTypeButton"
           (mockServer (valueOf "[{'ELEMENT':'A-1'},{'ELEMENT':'B-2'}]"))
           (fst (valueOf "[{'ELEMENT':'A-1'},{'ELEMENT':'B-2'}]"))).
  - reflexivity.
  - vm_compute. reflexivity.
Defined.

(** The handles of that answer, and the answer [[]]. *)
Example FindElements_two :
  fst (@FindElements TextUrl mockSession "class name" "XCUIElementTypeButton"
         (mockServer (valueOf "[{'ELEMENT':'A-1'},{'ELEMENT':'B-2'}]")))
  = (Some [ @mkElement TextUrl (Some "http://localhost:8100/session/8BF16568/element/A-1");
            @mkElement TextUrl (Some "http://localhost:8100/session/8BF16568/element/B-2") ],
     nil).
Proof. vm_compute. reflexivity. Qed.

Example FindElements_none :
  fst (@FindElements TextUrl mockSession "class name" "XCUIElementTypeButton"
         (mockServer (valueOf "[]")))
  = (None, Some ErrNoSuchElement).
Proof. vm_compute. reflexivity. Qed.

(** ** Decoding keeps the retained text *)

(** What every field of a struct leaves alone, the whole decode leaves
    alone. *)
Lemma object_preserves {S A} (proj : S -> A) (fields : list (json.Field S)) :
  Forall (fun f => forall t v, proj (fst (json.store f t v)) = proj v) fields ->
  forall ms v e, proj (fst (fold_left (fun acc m =>
               match json.field_of fields (fst m) with
               | Some f => let '(v', e) := json.store f (snd m) (fst acc) in
                           (v', json.saveError (snd acc) e)
               | None => acc
               end) ms (v, e))) = proj v.
Proof.
  intros Hfields. rewrite Forall_forall in Hfields.
  induction ms as [|m ms IH]; intros v e; [reflexivity|].
  cbn [fold_left fst snd].
  destruct (json.field_of fields (fst m)) as [f|] eqn:Hf; [|apply IH].
  assert (Hin : f ∈ fields).
  { unfold json.field_of in Hf. apply list_elem_of_In.
    destruct (find _ fields) as [g|] eqn:Hg.
    - injection Hf as <-. apply find_some in Hg. tauto.
    - apply find_some in Hf. tauto. }
  specialize (Hfields f Hin (snd m) v).
  destruct (json.store f (snd m) v) as [v' e'].
  rewrite IH. exact Hfields.
Qed.

Lemma struct_preserves {S A} (proj : S -> A) (fields : list (json.Field S)) :
  Forall (fun f => forall t v, proj (fst (json.store f t v)) = proj v) fields ->
  forall t v, proj (fst (json.struct_ fields t v)) = proj v.
Proof.
  intros Hfields t v. destruct t as [raw [| | | |str]|raw es|raw ms]; try reflexivity.
  apply (object_preserves proj fields Hfields).
Qed.

Lemma Unmarshal_preserves {S A} (proj : S -> A) (fields : list (json.Field S)) :
  Forall (fun f => forall t v, proj (fst (json.store f t v)) = proj v) fields ->
  forall data v, proj (fst (json.Unmarshal fields data v)) = proj v.
Proof.
  intros Hfields data v. unfold json.Unmarshal.
  destruct (jsontext.parse _); [|reflexivity].
  apply struct_preserves, Hfields.
Qed.

Lemma string_field_preserves {S A} (proj : S -> A) (set : string -> S -> S) :
  (forall x v, proj (set x v) = proj v) ->
  forall t v, proj (fst (json.string_field set t v)) = proj v.
Proof.
  intros Hset t v. destruct t as [raw [| | | |str]|raw es|raw ms]; cbn; auto.
Qed.

Lemma int_field_preserves {S A} (proj : S -> A) (set : Z -> S -> S) :
  (forall x v, proj (set x v) = proj v) ->
  forall t v, proj (fst (json.int_field set t v)) = proj v.
Proof.
  intros Hset t v. destruct t as [raw [| | | |str]|raw es|raw ms]; cbn; auto.
  destruct (json.ParseInt _); cbn; auto.
Qed.

Lemma bool_field_preserves {S A} (proj : S -> A) (set : bool -> S -> S) :
  (forall x v, proj (set x v) = proj v) ->
  forall t v, proj (fst (json.bool_field set t v)) = proj v.
Proof.
  intros Hset t v. destruct t as [raw [| | | |str]|raw es|raw ms]; cbn; auto.
Qed.

Lemma float_field_preserves {S A} (proj : S -> A) (set : json.float32 -> S -> S) :
  (forall x v, proj (set x v) = proj v) ->
  forall t v, proj (fst (json.float_field set t v)) = proj v.
Proof.
  intros Hset t v. destruct t as [raw [| | | |str]|raw es|raw ms]; cbn; auto.
Qed.

Lemma struct_field_preserves {S T A} (proj : S -> A) (get : S -> T)
    (set : T -> S -> S) (fields : list (json.Field T)) :
  (forall x v, proj (set x v) = proj v) ->
  forall t v, proj (fst (json.struct_field get set fields t v)) = proj v.
Proof.
  intros Hset t v. unfold json.struct_field.
  destruct (json.struct_ fields t (get v)). cbn. auto.
Qed.

Ltac preserved :=
  repeat constructor; intros;
  first [ apply string_field_preserves | apply int_field_preserves
        | apply bool_field_preserves | apply float_field_preserves
        | apply struct_field_preserves ];
  reflexivity.

Lemma WDASessionInfo_keeps (data : list byte) (v : WDASessionInfo.t) :
  WDASessionInfo._string (fst (json.Unmarshal WDASessionInfo.fields data v))
  = WDASessionInfo._string v.
Proof. apply (Unmarshal_preserves WDASessionInfo._string). preserved. Qed.

Lemma WDADeviceInfo_keeps (data : list byte) (v : WDADeviceInfo.t) :
  WDADeviceInfo._string (fst (json.Unmarshal WDADeviceInfo.fields data v))
  = WDADeviceInfo._string v.
Proof. apply (Unmarshal_preserves WDADeviceInfo._string). preserved. Qed.

Lemma WDABatteryInfo_keeps (data : list byte) (v : WDABatteryInfo.t) :
  WDABatteryInfo._string (fst (json.Unmarshal WDABatteryInfo.fields data v))
  = WDABatteryInfo._string v.
Proof. apply (Unmarshal_preserves WDABatteryInfo._string). preserved. Qed.

Lemma WDASize_keeps (data : list byte) (v : WDASize.t) :
  WDASize._string (fst (json.Unmarshal WDASize.fields data v)) = WDASize._string v.
Proof. apply (Unmarshal_preserves WDASize._string). preserved. Qed.

Lemma WDAScreen_keeps (data : list byte) (v : WDAScreen.t) :
  WDAScreen._string (fst (json.Unmarshal WDAScreen.fields data v)) = WDAScreen._string v.
Proof. apply (Unmarshal_preserves WDAScreen._string). preserved. Qed.

(** The text retained by the nested status bar size survives the decode of
    the screen, which stores only its width and height. *)
Lemma WDAScreen_keeps_nested (data : list byte) (v : WDAScreen.t) :
  WDASize._string (WDAScreen.StatusBarSize (fst (json.Unmarshal WDAScreen.fields data v)))
  = WDASize._string (WDAScreen.StatusBarSize v).
Proof.
  apply (Unmarshal_preserves (fun v => WDASize._string (WDAScreen.StatusBarSize v))).
  repeat constructor; intros t x.
  - unfold json.store, json.struct_field.
    pose proof (struct_preserves WDASize._string WDASize.fields) as Hs.
    specialize (Hs ltac:(preserved) t (WDAScreen.StatusBarSize x)).
    destruct (json.struct_ WDASize.fields t (WDAScreen.StatusBarSize x)). exact Hs.
  - apply (float_field_preserves (fun v => WDASize._string (WDAScreen.StatusBarSize v))).
    reflexivity.
Qed.

(** ** Typed results *)

Section TypedInfo.

Context `{UrlLib}.

(** A method that gets a value and decodes it with [k]. *)
Lemma get_then_decode {S} (actionName url : string) (zero : S)
    (k : wdaResponse -> S * error) (w : World) :
  ('(wdaResp, err) ← internalGet actionName url;
   match err with
   | Some _ => mret (zero, err)
   | None => mret (k wdaResp)
   end) w
  = (match snd (respond w (mkRequest GET actionName url None)) with
     | Some e => (zero, Some e)
     | None => k (fst (respond w (mkRequest GET actionName url None)))
     end,
     after w (mkRequest GET actionName url None)).
Proof.
  unfold internalGet, mbind, M_bind. rewrite executeHTTP_run.
  destruct (respond w _) as [resp [e|]]; reflexivity.
Qed.

Lemma GetActiveSession_run (s : Session) (w : World) (wdaResp : wdaResponse) :
  respond w (mkRequest GET "GetActiveSession" (urlJoin (sessionURL s) [""]) None)
  = (wdaResp, nil) ->
  fst (GetActiveSession s w)
  = json.Unmarshal WDASessionInfo.fields (bytes (gjson.String (getValue wdaResp)))
      (WDASessionInfo.mk (WDASessionInfo.mkCapabilities "" "" "" "") ""
                         (gjson.String (getValue wdaResp))).
Proof.
  intros Hresp. unfold GetActiveSession. rewrite get_then_decode, Hresp. reflexivity.
Qed.

Lemma DeviceInfo_run (s : Session) (w : World) (wdaResp : wdaResponse) :
  respond w (mkRequest GET "DeviceInfo" (urlJoin (sessionURL s) ["/wda/device/info"]) None)
  = (wdaResp, nil) ->
  fst (DeviceInfo s w)
  = json.Unmarshal WDADeviceInfo.fields (bytes (gjson.String (getValue wdaResp)))
      (WDADeviceInfo.mk "" "" "" "" 0 "" "" false (gjson.String (getValue wdaResp))).
Proof.
  intros Hresp. unfold DeviceInfo. rewrite get_then_decode, Hresp. reflexivity.
Qed.

Lemma BatteryInfo_run (s : Session) (w : World) (wdaResp : wdaResponse) :
  respond w (mkRequest GET "BatteryInfo" (urlJoin (sessionURL s) ["/wda/batteryInfo"]) None)
  = (wdaResp, nil) ->
  fst (BatteryInfo s w)
  = json.Unmarshal WDABatteryInfo.fields (bytes (gjson.String (getValue wdaResp)))
      (WDABatteryInfo.mk "0" 0 (gjson.String (getValue wdaResp))).
Proof.
  intros Hresp. unfold BatteryInfo. rewrite get_then_decode, Hresp. reflexivity.
Qed.

Lemma WindowSize_run (s : Session) (w : World) (wdaResp : wdaResponse) :
  respond w (mkRequest GET "WindowSize" (urlJoin (sessionURL s) ["/window/size"]) None)
  = (wdaResp, nil) ->
  fst (WindowSize s w)
  = json.Unmarshal WDASize.fields (bytes (gjson.String (getValue wdaResp)))
      (WDASize.mk 0 0 (gjson.String (getValue wdaResp))).
Proof.
  intros Hresp. unfold WindowSize. rewrite get_then_decode, Hresp. reflexivity.
Qed.

Lemma Screen_run (s : Session) (w : World) (wdaResp : wdaResponse) :
  respond w (mkRequest GET "Screen" (urlJoin (sessionURL s) ["/wda/screen"]) None)
  = (wdaResp, nil) ->
  fst (Screen s w)
  = json.Unmarshal WDAScreen.fields (bytes (gjson.String (getValue wdaResp)))
      (WDAScreen.mk
         (WDASize.mk 0 0 (gjson.String (gjson.Get (getValue wdaResp) "statusBarSize")))
         "0" (gjson.String (getValue wdaResp))).
Proof.
  intros Hresp. unfold Screen. rewrite get_then_decode, Hresp. reflexivity.
Qed.

(** C5, as the code has it. For every typed-info decode operation
    ([GetActiveSession], [DeviceInfo], [BatteryInfo], [WindowSize],
    [Screen]) whose transport call succeeds, the retained string of the
    returned struct is what [String] gives for the value of the response,
    whether the decode succeeds or returns an error: the text is stored
    before decoding and decoding does not change it. For [Screen], the
    nested status bar size retains the [String] of the [statusBarSize]
    member likewise. That text is the raw JSON text when the value is an
    object or an array, and the contents between the quotes when it is a
    JSON string. *)
Theorem typed_info_retains_text (s : Session) (w : World) :
  (forall wdaResp,
     respond w (mkRequest GET "GetActiveSession" (urlJoin (sessionURL s) [""]) None)
     = (wdaResp, nil) ->
     WDASessionInfo._string (fst (fst (GetActiveSession s w)))
     = gjson.String (getValue wdaResp))
  /\ (forall wdaResp,
     respond w (mkRequest GET "DeviceInfo" (urlJoin (sessionURL s) ["/wda/device/info"]) None)
     = (wdaResp, nil) ->
     WDADeviceInfo._string (fst (fst (DeviceInfo s w)))
     = gjson.String (getValue wdaResp))
  /\ (forall wdaResp,
     respond w (mkRequest GET "BatteryInfo" (urlJoin (sessionURL s) ["/wda/batteryInfo"]) None)
     = (wdaResp, nil) ->
     WDABatteryInfo._string (fst (fst (BatteryInfo s w)))
     = gjson.String (getValue wdaResp))
  /\ (forall wdaResp,
     respond w (mkRequest GET "WindowSize" (urlJoin (sessionURL s) ["/window/size"]) None)
     = (wdaResp, nil) ->
     WDASize._string (fst (fst (WindowSize s w)))
     = gjson.String (getValue wdaResp))
  /\ (forall wdaResp,
     respond w (mkRequest GET "Screen" (urlJoin (sessionURL s) ["/wda/screen"]) None)
     = (wdaResp, nil) ->
     WDAScreen._string (fst (fst (Screen s w))) = gjson.String (getValue wdaResp)
     /\ WDASize._string (WDAScreen.StatusBarSize (fst (fst (Screen s w))))
        = gjson.String (gjson.Get (getValue wdaResp) "statusBarSize"))
  /\ (forall r, gjson.IsObject r || gjson.IsArray r = true ->
                gjson.String r = gjson.Raw r)
  /\ (forall raw str, gjson.String (Some (jsontext.Leaf raw (jsontext.TString str))) = str).
Proof.
  repeat apply conj.
  - intros wdaResp Hresp. rewrite (GetActiveSession_run s w wdaResp Hresp).
    apply WDASessionInfo_keeps.
  - intros wdaResp Hresp. rewrite (DeviceInfo_run s w wdaResp Hresp).
    apply WDADeviceInfo_keeps.
  - intros wdaResp Hresp. rewrite (BatteryInfo_run s w wdaResp Hresp).
    apply WDABatteryInfo_keeps.
  - intros wdaResp Hresp. rewrite (WindowSize_run s w wdaResp Hresp).
    apply WDASize_keeps.
  - intros wdaResp Hresp. rewrite (Screen_run s w wdaResp Hresp).
    split; [apply WDAScreen_keeps | apply WDAScreen_keeps_nested].
  - intros [[raw tok|raw es|raw ms]|]; try discriminate; reflexivity.
  - reflexivity.
Qed.



End TypedInfo.

(** ** Typed results on the mock server *)



(** A payload without a state leaves the zero value, which is no defined
    code either. *)
Example BatteryInfo_state_missing :
  fst (@BatteryInfo TextUrl mockSession (mockServer (valueOf "{'level':1}")))
  = (WDABatteryInfo.mk "1" 0 (dq "{'level':1}"), nil).
Proof. vm_compute. reflexivity. Qed.

(** C5 as stated fails: for the payload ["oops"], a JSON string, the
    call returns a decode error and the retained string is [oops], the
    contents of the string, not the raw JSON text of the payload, which has
    the quotes. *)
Lemma BatteryInfo_string_payload :
  let answer := valueOf "'oops'" in
  let r := fst (@BatteryInfo TextUrl mockSession (mockServer answer)) in
  gjson.Raw (getValue (fst answer)) = dq "'oops'"
  /\ snd r = Some json.SyntaxError
  /\ WDABatteryInfo._string (fst r) = "oops"
  /\ WDABatteryInfo._string (fst r) <> gjson.Raw (getValue (fst answer)).
Proof.
  cbv zeta.
  assert (Hr : fst (@BatteryInfo TextUrl mockSession (mockServer (valueOf "'oops'")))
               = (WDABatteryInfo.mk "0" 0 "oops", Some json.SyntaxError))
    by (vm_compute; reflexivity).
  assert (Hraw : gjson.Raw (getValue (fst (valueOf "'oops'"))) = dq "'oops'")
    by (vm_compute; reflexivity).
  rewrite Hr, Hraw. cbn [fst snd WDABatteryInfo._string].
  repeat split; try reflexivity.
  vm_compute. discriminate.
Qed.

(** A decode error on an object payload: the level is a string, the call
    returns the type error, and the retained string is the raw text. *)
Example BatteryInfo_decode_error_keeps_text :
  fst (@BatteryInfo TextUrl mockSession (mockServer (valueOf "{'level':'high','state':2}")))
  = (WDABatteryInfo.mk "0" 2 (dq "{'level':'high','state':2}"),
     Some (json.UnmarshalTypeError "string")).
Proof. vm_compute. reflexivity. Qed.

(** The scenario of the window size endpoint. *)
Example WindowSize_scenario :
  fst (@WindowSize TextUrl mockSession (mockServer (valueOf "{'width':812,'height':375}")))
  = (WDASize.mk 812 375 (dq "{'width':812,'height':375}"), nil).
Proof. vm_compute. reflexivity. Qed.

(** The payload of the plain text [hello]. *)
Example SetPasteboardForPlaintext_hello :
  last_content (snd (@SetPasteboardForPlaintext TextUrl mockSession "hello"
                       (mockServer (valueOf "null"))))
  = Some (VString "aGVsbG8=")
  /\ base64.DecodeString base64.StdEncoding "aGVsbG8=" = Some (bytes "hello").
Proof. split; vm_compute; reflexivity. Qed.

(** An input whose standard encoding has a [+]. *)
Example SetPasteboardForUrl_differs :
  base64.EncodeToString base64.StdEncoding (bytes "a?>") = "YT8+"
  /\ last_content (snd (@SetPasteboardForUrl TextUrl mockSession "a?>"
                          (mockServer (valueOf "null"))))
     = Some (VString "YT8-").
Proof. split; vm_compute; reflexivity. Qed.

(** The three runs of [SetPasteboardForImage] on a file system with a
    readable file, a file whose read fails, and nothing else. *)
Example SetPasteboardForImage_runs :
  let fs := fun name =>
    if String.eqb name "icon.png" then Some (bytes "PNG", None)
    else if String.eqb name "torn.png" then Some (bytes "P", Some "unexpected EOF")
    else None in
  let w := mockFiles (valueOf "null") fs in
  let run := fun name =>
    let r := @SetPasteboardForImage TextUrl mockSession name w in
    (fst r, map (fun e => match e with
                          | Sent _ => "sent" | Opened _ => "opened"
                          | Read _ => "read" | Closed _ => "closed"
                          end) (trace (snd r)),
     bool_decide (open_files (snd r) = ∅)) in
  run "icon.png" = (nil, ["opened"; "read"; "sent"; "closed"], true)
  /\ run "torn.png" = (Some (IOError "unexpected EOF"), ["opened"; "read"; "closed"], true)
  /\ run "none.png" = (Some (IOError "open none.png"), [], true).
Proof. cbv zeta. repeat split; vm_compute; reflexivity. Qed.

(** * More properties of the session methods *)

(** ** One request for each call *)


Section OneRequest.

Context `{UrlLib}.


End OneRequest.

(** ** Calls that check the embedded message *)

Lemma getErrMsg_nil (r : wdaResponse) : getErrMsg r = nil <-> errMsg r = "".
Proof.
  unfold getErrMsg. case_bool_decide; split; intros; congruence.
Qed.

Section CheckedCalls.

Context `{UrlLib}.

Lemma SendKeys_run (s : Session) (text : string) (w : World) :
  let r := mkRequest POST "SendKeys" (urlJoin (sessionURL s) ["/wda/keys"])
             (Some (setSendKeys newWdaBody text)) in
  SendKeys s text w
  = (match snd (respond w r) with
     | Some e => Some e
     | None => getErrMsg (fst (respond w r))
     end, after w r).
Proof. apply post_then_getErrMsg. Qed.

Lemma AppDeactivate_run (s : Session) (seconds : list json.float32) (w : World) :
  let r := mkRequest POST "AppDeactivate" (urlJoin (sessionURL s) ["/wda/deactivateApp"])
             (Some (match seconds with
                    | [] => newWdaBody
                    | d :: _ => set newWdaBody "duration" (VFloat d)
                    end)) in
  AppDeactivate s seconds w
  = (match snd (respond w r) with
     | Some e => Some e
     | None => getErrMsg (fst (respond w r))
     end, after w r).
Proof. destruct seconds; apply post_then_getErrMsg. Qed.

Lemma checked_outcome_intro (answer : wdaResponse * error) :
  checked_outcome (match snd answer with
                   | Some e => Some e
                   | None => getErrMsg (fst answer)
                   end) answer.
Proof.
  unfold checked_outcome. destruct (snd answer) as [e|].
  - split; [|split].
    + split; [discriminate|intros [Hn _]; discriminate Hn].
    + intros e' He. exact He.
    + discriminate.
  - split; [|split].
    + rewrite getErrMsg_nil. tauto.
    + discriminate.
    + intros _ Hne. unfold getErrMsg. rewrite bool_decide_eq_false_2 by exact Hne.
      reflexivity.
Qed.

(** X2. [Tap], [SendKeys] and [AppDeactivate] succeed exactly when the
    transport succeeds and the response carries no embedded message; an
    error of the transport is returned as it is, before any look at the
    message, and otherwise a non-empty message is returned as a
    [ServerError]. *)
Theorem checked_calls_outcome (s : Session) (w : World) :
  (forall x y,
     checked_outcome (fst (Tap s x y w))
       (respond w (mkRequest POST "Tap" (urlJoin (sessionURL s) ["wda"; "tap"; "0"])
                     (Some (setXY newWdaBody x y)))))
  /\ (forall text,
     checked_outcome (fst (SendKeys s text w))
       (respond w (mkRequest POST "SendKeys" (urlJoin (sessionURL s) ["/wda/keys"])
                     (Some (setSendKeys newWdaBody text)))))
  /\ (forall seconds,
     checked_outcome (fst (AppDeactivate s seconds w))
       (respond w (mkRequest POST "AppDeactivate"
                     (urlJoin (sessionURL s) ["/wda/deactivateApp"])
                     (Some (match seconds with
                            | [] => newWdaBody
                            | d :: _ => set newWdaBody "duration" (VFloat d)
                            end))))).
Proof.
  repeat apply conj; intros.
  - rewrite Tap_run. apply checked_outcome_intro.
  - rewrite SendKeys_run. apply checked_outcome_intro.
  - rewrite AppDeactivate_run. apply checked_outcome_intro.
Qed.

End CheckedCalls.

(** ** Calls that drop the response *)

Section UncheckedCalls.

Context `{UrlLib}.

(** X3. [DeleteSession], [AppLaunch], [DoubleTap], [TouchAndHold],
    [AppTerminate], [AppActivate], [SetPasteboard] and its text and URL
    wrappers, [PressButton] and its three wrappers, [SiriActivate] and
    [SiriOpenURL] return the error of the transport for the one request
    they send, and nothing else: they fail exactly when the transport
    fails, whatever the response holds. *)
Theorem unchecked_calls_transport_only (s : Session) :
  transport_only (DeleteSession s)
  /\ (forall bundleId opt, transport_only (AppLaunch s bundleId opt))
  /\ (forall x y, transport_only (DoubleTap s x y))
  /\ (forall x y duration, transport_only (TouchAndHold s x y duration))
  /\ (forall bundleId, transport_only (AppTerminate s bundleId))
  /\ (forall bundleId, transport_only (AppActivate s bundleId))
  /\ (forall contentType content, transport_only (SetPasteboard s contentType content))
  /\ (forall content, transport_only (SetPasteboardForPlaintext s content))
  /\ (forall url, transport_only (SetPasteboardForUrl s url))
  /\ (forall name, transport_only (PressButton s name))
  /\ transport_only (PressHomeButton s)
  /\ transport_only (PressVolumeUpButton s)
  /\ transport_only (PressVolumeDownButton s)
  /\ (forall text, transport_only (SiriActivate s text))
  /\ (forall url, transport_only (SiriOpenURL s url)).
Proof.
  repeat apply conj; intros; intros w; eexists;
    unfold DeleteSession, AppLaunch, DoubleTap, TouchAndHold, AppTerminate, AppActivate,
      SetPasteboardForPlaintext, SetPasteboardForUrl, SetPasteboard,
      PressHomeButton, PressVolumeUpButton, PressVolumeDownButton, PressButton,
      SiriActivate, SiriOpenURL, internalPost, internalDelete, mbind, M_bind;
    cbv zeta; rewrite executeHTTP_run;
    destruct (respond w _) as [resp err] eqn:Hresp; cbn [fst snd];
    rewrite Hresp; reflexivity.
Qed.

End UncheckedCalls.

(** ** Request bodies *)

Lemma last_body_after (w : World) (r : Request) : last_body (after w r) = body r.
Proof.
  unfold last_body, sent, after. cbn [trace].
  rewrite omap_app. cbn [omap list_omap]. rewrite last_snoc. reflexivity.
Qed.

Lemma setAppLaunchOption_union (wb opt : wdaBody) :
  setAppLaunchOption wb opt = opt ∪ wb.
Proof.
  unfold setAppLaunchOption.
  apply (map_fold_weak_ind (fun (r : wdaBody) (m : wdaBody) => r = m ∪ wb)).
  - rewrite (left_id_L ∅ (∪)). reflexivity.
  - intros i x m r _ ->. unfold set. rewrite insert_union_l. reflexivity.
Qed.

(** X4. The launch option setters store one field each: setters of different
    fields commute, a second call of a setter replaces the first, and a
    setter leaves the other fields as they are. *)
Theorem launch_option_setters (alo : WDAAppLaunchOption) (b b' : bool)
    (args : list string) (env : gmap string string) :
  SetArguments (SetShouldWaitForQuiescence alo b) args
  = SetShouldWaitForQuiescence (SetArguments alo args) b
  /\ SetEnvironment (SetShouldWaitForQuiescence alo b) env
     = SetShouldWaitForQuiescence (SetEnvironment alo env) b
  /\ SetEnvironment (SetArguments alo args) env
     = SetArguments (SetEnvironment alo env) args
  /\ SetShouldWaitForQuiescence (SetShouldWaitForQuiescence alo b) b'
     = SetShouldWaitForQuiescence alo b'
  /\ SetShouldWaitForQuiescence alo b !! "shouldWaitForQuiescence" = Some (VBool b)
  /\ SetArguments alo args !! "arguments" = Some (VStrings args)
  /\ SetEnvironment alo env !! "environment" = Some (VEnv env)
  /\ (forall k, k <> "shouldWaitForQuiescence" ->
      SetShouldWaitForQuiescence alo b !! k = alo !! k)
  /\ (forall k, k <> "arguments" -> SetArguments alo args !! k = alo !! k)
  /\ (forall k, k <> "environment" -> SetEnvironment alo env !! k = alo !! k).
Proof.
  unfold SetArguments, SetShouldWaitForQuiescence, SetEnvironment, set.
  repeat apply conj.
  - apply insert_insert_ne. discriminate.
  - apply insert_insert_ne. discriminate.
  - apply insert_insert_ne. discriminate.
  - apply insert_insert_eq.
  - apply lookup_insert_eq.
  - apply lookup_insert_eq.
  - apply lookup_insert_eq.
  - intros k Hk. apply lookup_insert_ne. congruence.
  - intros k Hk. apply lookup_insert_ne. congruence.
  - intros k Hk. apply lookup_insert_ne. congruence.
Qed.

Section Bodies.

Context `{UrlLib}.

(** X5. With an option, [AppLaunch] sends the fields of the first option and
    the bundle id, and nothing else: the default
    [shouldWaitForQuiescence] is not added to an option that lacks it, and
    further options are ignored. *)
Theorem AppLaunch_option_body (s : Session) (bundleId : string)
    (opt : WDAAppLaunchOption) (rest : list WDAAppLaunchOption) (w : World) :
  exists b : wdaBody,
    last_body (snd (AppLaunch s bundleId (opt :: rest) w)) = Some b
    /\ b = opt ∪ {["bundleId" := VString bundleId]}
    /\ (forall k v, opt !! k = Some v -> b !! k = Some v)
    /\ (forall k, opt !! k = None -> k <> "bundleId" -> b !! k = None)
    /\ (opt !! "bundleId" = None -> b !! "bundleId" = Some (VString bundleId)).
Proof.
  eexists. split; [|split; [reflexivity|]].
  - unfold AppLaunch. cbv zeta. rewrite bool_decide_eq_false_2 by discriminate.
    cbn [head default]. unfold id. rewrite post_then_err. cbn [snd].
    rewrite last_body_after. cbn [body]. rewrite setAppLaunchOption_union.
    unfold setBundleID, newWdaBody, set. rewrite insert_empty. reflexivity.
  - repeat apply conj.
    + intros k v Hk. apply lookup_union_Some_l, Hk.
    + intros k Hk Hne. apply lookup_union_None_2; [exact Hk|].
      apply lookup_singleton_ne. congruence.
    + intros Hk. rewrite lookup_union_r by exact Hk. apply lookup_singleton_eq.
Qed.

(** X6. [TouchAndHold] sends the coordinates and a duration: [1.0] when none
    is given, else the first one given. [AppDeactivate] sends an empty
    body when no duration is given, else a body with the first one. *)
Theorem optional_duration (s : Session) (x y : Z) (d : json.float32)
    (rest : list json.float32) (w : World) :
  last_body (snd (TouchAndHold s x y [] w))
  = Some (<["duration" := VFloat "1.0"]> (<["y" := VInt y]> (<["x" := VInt x]> ∅)))
  /\ last_body (snd (TouchAndHold s x y (d :: rest) w))
     = Some (<["duration" := VFloat d]> (<["y" := VInt y]> (<["x" := VInt x]> ∅)))
  /\ last_body (snd (AppDeactivate s [] w)) = Some ∅
  /\ last_body (snd (AppDeactivate s (d :: rest) w)) = Some {["duration" := VFloat d]}.
Proof.
  rewrite !TouchAndHold_run, !AppDeactivate_run. cbn [snd].
  rewrite !last_body_after. cbn [body head default]. unfold id.
  repeat apply conj; reflexivity.
Qed.

End Bodies.

(** ** Application states *)

(** X7. [String] of an application state names the three defined codes
    apart, and is [UNKNOWN] exactly for the other values; a combination of
    the flags, such as 3, is among them. *)
Theorem WDAAppRunState_String_codes (v : WDAAppRunState) :
  (WDAAppRunState_String v = "Not Running" <-> v = WDAAppNotRunning)
  /\ (WDAAppRunState_String v = "Running (Back)" <-> v = WDAAppRunningBack)
  /\ (WDAAppRunState_String v = "Running (Front)" <-> v = WDAAppRunningFront)
  /\ (WDAAppRunState_String v = "UNKNOWN"
      <-> v <> WDAAppNotRunning /\ v <> WDAAppRunningBack /\ v <> WDAAppRunningFront)
  /\ WDAAppRunState_String (Z.lor WDAAppNotRunning WDAAppRunningBack) = "UNKNOWN".
Proof.
  unfold WDAAppRunState_String, WDAAppNotRunning, WDAAppRunningBack, WDAAppRunningFront.
  change (Z.shiftl 1 0) with 1. change (Z.shiftl 1 1) with 2. change (Z.shiftl 1 2) with 4.
  destruct (Z.eqb_spec v 1) as [->|H1]; [repeat split; intros; try lia; try discriminate|].
  destruct (Z.eqb_spec v 2) as [->|H2]; [repeat split; intros; try lia; try discriminate|].
  destruct (Z.eqb_spec v 4) as [->|H4]; [repeat split; intros; try lia; try discriminate|].
  repeat split; intros; try lia; try discriminate.
Qed.

Section AppStateValues.

Context `{UrlLib}.

(** X8. When the transport succeeds and the response value is no number,
    [AppState] still returns without error: the state 0, which renders as
    [UNKNOWN], for a missing value, [null], [false], an array or an
    object, and the state 1, [WDAAppNotRunning], for [true]. *)
Theorem AppState_non_numeric (s : Session) (bundleId : string) (w : World)
    (wdaResp : wdaResponse) :
  respond w (mkRequest POST "AppState" (urlJoin (sessionURL s) ["/wda/apps/state"])
               (Some (setBundleID newWdaBody bundleId))) = (wdaResp, nil) ->
  ((getValue wdaResp = None
    \/ (exists raw, getValue wdaResp = Some (jsontext.Leaf raw jsontext.TNull))
    \/ (exists raw, getValue wdaResp = Some (jsontext.Leaf raw jsontext.TFalse))
    \/ (exists raw es, getValue wdaResp = Some (jsontext.Arr raw es))
    \/ (exists raw ms, getValue wdaResp = Some (jsontext.Obj raw ms))) ->
   fst (AppState s bundleId w) = (0, nil))
  /\ ((exists raw, getValue wdaResp = Some (jsontext.Leaf raw jsontext.TTrue)) ->
      fst (AppState s bundleId w) = (WDAAppNotRunning, nil))
  /\ WDAAppRunState_String 0 = "UNKNOWN".
Proof.
  intros Hresp.
  assert (Hrun : fst (AppState s bundleId w) = (gjson.Int (getValue wdaResp), nil)).
  { unfold AppState, internalPost, mbind, M_bind. rewrite executeHTTP_run, Hresp.
    reflexivity. }
  rewrite Hrun. repeat split.
  - intros [Hv|[[raw Hv]|[[raw Hv]|[[raw [es Hv]]|[raw [ms Hv]]]]]]; rewrite Hv; reflexivity.
  - intros [raw Hv]. rewrite Hv. reflexivity.
Qed.

End AppStateValues.

Lemma AppState_non_numeric_witness :
  let w := mockServer (valueOf "{'state':4}") in
  ((getValue (fst (valueOf "{'state':4}")) = None
    \/ (exists raw, getValue (fst (valueOf "{'state':4}"))
                    = Some (jsontext.Leaf raw jsontext.TNull))
    \/ (exists raw, getValue (fst (valueOf "{'state':4}"))
                    = Some (jsontext.Leaf raw jsontext.TFalse))
    \/ (exists raw es, getValue (fst (valueOf "{'state':4}")) = Some (jsontext.Arr raw es))
    \/ (exists raw ms, getValue (fst (valueOf "{'state':4}")) = Some (jsontext.Obj raw ms))) ->
   fst (@AppState TextUrl mockSession "com.apple.Preferences" w) = (0, nil))
  /\ ((exists raw, getValue (fst (valueOf "{'state':4}"))
                   = Some (jsontext.Leaf raw jsontext.TTrue)) ->
      fst (@AppState TextUrl mockSession "com.apple.Preferences" w)
      = (WDAAppNotRunning, nil))
  /\ WDAAppRunState_String 0 = "UNKNOWN".
Proof.
  cbv zeta.
  apply (@AppState_non_numeric TextUrl mockSession "com.apple.Preferences"
           (mockServer (valueOf "{'state':4}"))).
  reflexivity.
Defined.

(** The answers [{"state":4}], an object, and [true]. *)
Example AppState_object_and_true :
  fst (@AppState TextUrl mockSession "com.apple.Preferences"
         (mockServer (valueOf "{'state':4}"))) = (0, nil)
  /\ fst (@AppState TextUrl mockSession "com.apple.Preferences"
            (mockServer (valueOf "true"))) = (1, nil).
Proof. split; vm_compute; reflexivity. Qed.

(** ** Typed results: failures *)

Lemma Unmarshal_empty {S} (fields : list (json.Field S)) (v : S) :
  json.Unmarshal fields (bytes "") v = (v, Some json.SyntaxError).
Proof. reflexivity. Qed.

Lemma String_absent (r : gjson.Result) :
  r = None \/ (exists raw, r = Some (jsontext.Leaf raw jsontext.TNull)) ->
  gjson.String r = "".
Proof. intros [->|[raw ->]]; reflexivity. Qed.

Section TypedFailures.

Context `{UrlLib}.

Variable T : Type.
Variable T_zero : T.
Variable T_fields : list (json.Field T).

(** X9. When the transport fails, the methods that decode a value return
    that error with the zero value of their result (zero fields, empty
    retained text, the nil list, the empty string) and decode nothing. *)
Theorem decoders_transport_failure (s : Session) (w : World) (e : Err) :
  (snd (respond w (mkRequest GET "GetActiveSession" (urlJoin (sessionURL s) [""]) None))
   = Some e -> fst (GetActiveSession s w) = (WDASessionInfo.zero, Some e))
  /\ (snd (respond w (mkRequest GET "DeviceInfo"
                        (urlJoin (sessionURL s) ["/wda/device/info"]) None))
      = Some e -> fst (DeviceInfo s w) = (WDADeviceInfo.zero, Some e))
  /\ (snd (respond w (mkRequest GET "BatteryInfo"
                        (urlJoin (sessionURL s) ["/wda/batteryInfo"]) None))
      = Some e -> fst (BatteryInfo s w) = (WDABatteryInfo.zero, Some e))
  /\ (snd (respond w (mkRequest GET "WindowSize"
                        (urlJoin (sessionURL s) ["/window/size"]) None))
      = Some e -> fst (WindowSize s w) = (WDASize.zero, Some e))
  /\ (snd (respond w (mkRequest GET "Screen" (urlJoin (sessionURL s) ["/wda/screen"]) None))
      = Some e ->
      fst (Screen s w) = (WDAScreen.zero, Some e)
      /\ fst (Scale s w) = (WDAScreen.Scale WDAScreen.zero, Some e)
      /\ fst (StatusBarSize s w) = (WDASize.zero, Some e))
  /\ (snd (respond w (mkRequest GET "ActiveAppsList"
                        (urlJoin (sessionURL s) ["/wda/apps/list"]) None))
      = Some e ->
      fst (ActiveAppsList T T_zero T_fields s w)
      = (None, Some e))
  /\ (snd (respond w (mkRequest GET "GetAppiumSettings"
                        (urlJoin (sessionURL s) ["/appium/settings"]) None))
      = Some e -> fst (GetAppiumSettings s w) = ("", Some e)).
Proof.
  assert (HScreen :
    snd (respond w (mkRequest GET "Screen" (urlJoin (sessionURL s) ["/wda/screen"]) None))
    = Some e -> fst (Screen s w) = (WDAScreen.zero, Some e)).
  { intros He. unfold Screen. rewrite get_then_decode, He. reflexivity. }
  repeat apply conj; intros He.
  - unfold GetActiveSession. rewrite get_then_decode, He. reflexivity.
  - unfold DeviceInfo. rewrite get_then_decode, He. reflexivity.
  - unfold BatteryInfo. rewrite get_then_decode, He. reflexivity.
  - unfold WindowSize. rewrite get_then_decode, He. reflexivity.
  - apply HScreen in He. split; [exact He|].
    unfold Scale, StatusBarSize, mbind, M_bind.
    destruct (Screen s w) as [[screen err] w']. cbn [fst] in *.
    injection He as -> ->. split; reflexivity.
  - unfold ActiveAppsList. rewrite get_then_decode, He. reflexivity.
  - unfold GetAppiumSettings. rewrite get_then_decode, He. reflexivity.
Qed.

(** X10. When the transport succeeds and the response has no value, or the
    value [null], the typed decoders read the empty text: they return a
    syntax error of the decoder with the zero struct, and [ActiveAppsList]
    returns it with the empty list, not the nil one; [GetAppiumSettings],
    which decodes nothing, returns the empty string and no error. *)
Theorem decoders_absent_value (s : Session) (w : World) :
  (forall wdaResp,
     respond w (mkRequest GET "GetActiveSession" (urlJoin (sessionURL s) [""]) None)
     = (wdaResp, nil) ->
     getValue wdaResp = None
     \/ (exists raw, getValue wdaResp = Some (jsontext.Leaf raw jsontext.TNull)) ->
     fst (GetActiveSession s w) = (WDASessionInfo.zero, Some json.SyntaxError))
  /\ (forall wdaResp,
     respond w (mkRequest GET "DeviceInfo" (urlJoin (sessionURL s) ["/wda/device/info"]) None)
     = (wdaResp, nil) ->
     getValue wdaResp = None
     \/ (exists raw, getValue wdaResp = Some (jsontext.Leaf raw jsontext.TNull)) ->
     fst (DeviceInfo s w) = (WDADeviceInfo.zero, Some json.SyntaxError))
  /\ (forall wdaResp,
     respond w (mkRequest GET "BatteryInfo" (urlJoin (sessionURL s) ["/wda/batteryInfo"]) None)
     = (wdaResp, nil) ->
     getValue wdaResp = None
     \/ (exists raw, getValue wdaResp = Some (jsontext.Leaf raw jsontext.TNull)) ->
     fst (BatteryInfo s w) = (WDABatteryInfo.zero, Some json.SyntaxError))
  /\ (forall wdaResp,
     respond w (mkRequest GET "WindowSize" (urlJoin (sessionURL s) ["/window/size"]) None)
     = (wdaResp, nil) ->
     getValue wdaResp = None
     \/ (exists raw, getValue wdaResp = Some (jsontext.Leaf raw jsontext.TNull)) ->
     fst (WindowSize s w) = (WDASize.zero, Some json.SyntaxError))
  /\ (forall wdaResp,
     respond w (mkRequest GET "Screen" (urlJoin (sessionURL s) ["/wda/screen"]) None)
     = (wdaResp, nil) ->
     getValue wdaResp = None
     \/ (exists raw, getValue wdaResp = Some (jsontext.Leaf raw jsontext.TNull)) ->
     fst (Screen s w) = (WDAScreen.zero, Some json.SyntaxError))
  /\ (forall wdaResp,
     respond w (mkRequest GET "ActiveAppsList" (urlJoin (sessionURL s) ["/wda/apps/list"]) None)
     = (wdaResp, nil) ->
     getValue wdaResp = None
     \/ (exists raw, getValue wdaResp = Some (jsontext.Leaf raw jsontext.TNull)) ->
     fst (ActiveAppsList T T_zero T_fields s w)
     = (Some [], Some json.SyntaxError))
  /\ (forall wdaResp,
     respond w (mkRequest GET "GetAppiumSettings"
                  (urlJoin (sessionURL s) ["/appium/settings"]) None)
     = (wdaResp, nil) ->
     getValue wdaResp = None
     \/ (exists raw, getValue wdaResp = Some (jsontext.Leaf raw jsontext.TNull)) ->
     fst (GetAppiumSettings s w) = ("", nil)).
Proof.
  repeat apply conj; intros wdaResp Hresp Hv.
  - rewrite (GetActiveSession_run s w wdaResp Hresp), (String_absent _ Hv).
    apply Unmarshal_empty.
  - rewrite (DeviceInfo_run s w wdaResp Hresp), (String_absent _ Hv).
    apply Unmarshal_empty.
  - rewrite (BatteryInfo_run s w wdaResp Hresp), (String_absent _ Hv).
    apply Unmarshal_empty.
  - rewrite (WindowSize_run s w wdaResp Hresp), (String_absent _ Hv).
    apply Unmarshal_empty.
  - rewrite (Screen_run s w wdaResp Hresp), (String_absent _ Hv).
    assert (Hsb : gjson.String (gjson.Get (getValue wdaResp) "statusBarSize") = "").
    { destruct Hv as [->|[raw ->]]; reflexivity. }
    rewrite Hsb. apply Unmarshal_empty.
  - unfold ActiveAppsList. rewrite get_then_decode, Hresp. cbn [fst snd].
    rewrite (String_absent _ Hv). reflexivity.
  - unfold GetAppiumSettings. rewrite get_then_decode, Hresp. cbn [fst snd].
    rewrite (String_absent _ Hv). reflexivity.
Qed.

End TypedFailures.

(** ** Locating elements *)

Lemma lookup_map {A B} (f : A -> B) (l : list A) (i : nat) :
  map f l !! i = f <$> (l !! i).
Proof.
  revert i. induction l as [|x l IH]; intros [|i]; try reflexivity. apply IH.
Qed.

Section Locators.

Context `{UrlLaws}.

Lemma FindElements_run (s : Session) (using_ value : string) (w : World) :
  let r := mkRequest POST "FindElements" (urlJoin (sessionURL s) ["elements"])
             (Some (set (set newWdaBody "using" (VString using_))
                        "value" (VString value))) in
  let handle := fun res =>
    mkElement (fst (url_Parse (urlJoin (sessionURL s)
                                 ["element"; gjson.String (gjson.Get res "ELEMENT")]))) in
  fst (FindElements s using_ value w)
  = match snd (respond w r) with
    | Some e => (None, Some e)
    | None =>
        match gjson.Array (getValue (fst (respond w r))) with
        | [] => (None, Some ErrNoSuchElement)
        | results => (Some (map handle results), nil)
        end
    end.
Proof.
  cbv zeta. unfold FindElements, internalPost, mbind, M_bind.
  rewrite executeHTTP_run. destruct (respond w _) as [resp [e|]]; [reflexivity|].
  cbn [fst snd]. destruct (gjson.Array (getValue resp)) as [|res results] eqn:Harr.
  - reflexivity.
  - rewrite bool_decide_eq_false_2 by discriminate.
    rewrite fold_left_append. reflexivity.
Qed.

(** X11. [FindElement]: an error of the transport is returned with the empty
    handle; a response whose value has no [ELEMENT] member, or an empty
    one, gives the empty handle and [ErrNoSuchElement]; otherwise the
    handle of that identifier is returned without error, and it lies under
    the session URL. *)
Theorem FindElement_outcomes (s : Session) (using_ value : string) (w : World)
    (wdaResp : wdaResponse) (err : error) :
  respond w (mkRequest POST "FindElements" (urlJoin (sessionURL s) ["element"])
               (Some (set (set newWdaBody "using" (VString using_))
                          "value" (VString value)))) = (wdaResp, err) ->
  let elementID := gjson.String (gjson.Get (getValue wdaResp) "ELEMENT") in
  (forall e, err = Some e ->
     fst (FindElement s using_ value w) = (mkElement None, Some e))
  /\ (err = nil -> elementID = "" ->
      fst (FindElement s using_ value w) = (mkElement None, Some ErrNoSuchElement))
  /\ (err = nil -> elementID <> "" ->
      fst (FindElement s using_ value w)
      = (mkElement (fst (url_Parse (urlJoin (sessionURL s) ["element"; elementID]))), nil)
      /\ under (sessionURL s) (fst (fst (FindElement s using_ value w)))).
Proof.
  intros Hresp. cbv zeta. unfold FindElement, internalPost, mbind, M_bind.
  rewrite executeHTTP_run, Hresp. repeat apply conj.
  - intros e ->. reflexivity.
  - intros -> Hid. cbn [fst]. rewrite Hid. reflexivity.
  - intros -> Hid. cbn [fst]. rewrite bool_decide_eq_false_2 by exact Hid.
    split; [reflexivity|]. cbn [fst]. apply joined_under.
Qed.

(** X12. [FindElements] on values that are no array: an error of the
    transport gives the nil sequence and that error; a missing value or
    [null] gives [ErrNoSuchElement]; an object gives one handle, made from
    its [ELEMENT] member; any other scalar gives one handle with an empty
    identifier. *)
Theorem FindElements_no_array (s : Session) (using_ value : string) (w : World)
    (wdaResp : wdaResponse) (err : error) :
  respond w (mkRequest POST "FindElements" (urlJoin (sessionURL s) ["elements"])
               (Some (set (set newWdaBody "using" (VString using_))
                          "value" (VString value)))) = (wdaResp, err) ->
  (forall e, err = Some e -> fst (FindElements s using_ value w) = (None, Some e))
  /\ (err = nil ->
      getValue wdaResp = None
      \/ (exists raw, getValue wdaResp = Some (jsontext.Leaf raw jsontext.TNull)) ->
      fst (FindElements s using_ value w) = (None, Some ErrNoSuchElement))
  /\ (forall raw ms, err = nil -> getValue wdaResp = Some (jsontext.Obj raw ms) ->
      fst (FindElements s using_ value w)
      = (Some [mkElement (fst (url_Parse (urlJoin (sessionURL s)
                 ["element"; gjson.String (gjson.member "ELEMENT" ms)])))], nil))
  /\ (forall raw tok, err = nil -> getValue wdaResp = Some (jsontext.Leaf raw tok) ->
      tok <> jsontext.TNull ->
      fst (FindElements s using_ value w)
      = (Some [mkElement (fst (url_Parse (urlJoin (sessionURL s) ["element"; ""])))], nil)).
Proof.
  intros Hresp. rewrite FindElements_run, Hresp. cbn [fst snd]. repeat apply conj.
  - intros e ->. reflexivity.
  - intros -> [Hv|[raw Hv]]; rewrite Hv; reflexivity.
  - intros raw ms -> Hv. rewrite Hv. reflexivity.
  - intros raw tok -> Hv Htok. rewrite Hv. destruct tok; try congruence; reflexivity.
Qed.

(** X13. [FindElements] keeps the order of the response: the handle at each
    index is made from the [ELEMENT] member of the array element at that
    index (the empty identifier when the element has none). *)
Theorem FindElements_order (s : Session) (using_ value : string) (w : World)
    (wdaResp : wdaResponse) (raw : string) (es : list jsontext.Tree)
    (i : nat) (res : jsontext.Tree) :
  respond w (mkRequest POST "FindElements" (urlJoin (sessionURL s) ["elements"])
               (Some (set (set newWdaBody "using" (VString using_))
                          "value" (VString value)))) = (wdaResp, nil) ->
  getValue wdaResp = Some (jsontext.Arr raw es) ->
  es !! i = Some res ->
  exists elements,
    fst (FindElements s using_ value w) = (Some elements, nil)
    /\ elements !! i
       = Some (mkElement (fst (url_Parse (urlJoin (sessionURL s)
                 ["element"; gjson.String (gjson.Get (Some res) "ELEMENT")])))).
Proof.
  intros Hresp Hv Hi. rewrite FindElements_run, Hresp. cbn [fst snd].
  rewrite Hv. cbn [gjson.Array].
  destruct es as [|e0 es]; [discriminate Hi|]. cbn [map].
  eexists. split; [reflexivity|].
  destruct i as [|i].
  - injection Hi as ->. reflexivity.
  - change ((e0 :: es) !! S i) with (es !! i) in Hi.
    match goal with |- (_ :: ?l) !! S i = ?x => change (l !! i = x) end.
    rewrite !lookup_map, Hi. reflexivity.
Qed.

End Locators.

(** ** Pasteboard payloads of the other wrappers *)

Lemma URLEncoding_no_newline i : 0 <= i < 64 ->
  base64.is_newline (base64.encode_at base64.URLEncoding i) = false.
Proof.
  intros Hi.
  apply (below64 (fun i => negb
    (base64.is_newline (base64.encode_at base64.URLEncoding i))))
    in Hi; [|vm_compute; reflexivity].
  apply negb_true_iff in Hi. exact Hi.
Qed.

Lemma URLEncoding_roundtrip (l : list byte) :
  base64.DecodeString base64.URLEncoding (base64.EncodeToString base64.URLEncoding l)
  = Some l.
Proof.
  apply (DecodeString_EncodeToString base64.URLEncoding base64.StdPadding).
  - apply URLEncoding_decodeMap.
  - reflexivity.
  - reflexivity.
  - apply URLEncoding_no_newline.
  - reflexivity.
Qed.

(** A character that is neither of the alphabet nor the padding makes the
    decoder refuse the text. *)
Lemma decode_quanta_refuses (enc : base64.Encoding) (c : byte) (n : nat) :
  base64.decodeMap enc c = None -> base64.is_pad enc c = false ->
  forall l, (length l <= n)%nat -> c ∈ l -> base64.decode_quanta enc l = None.
Proof.
  intros Hc Hp. induction n as [|n IH]; intros l Hn Hin.
  - destruct l; [inversion Hin|cbn [length] in Hn; lia].
  - destruct l as [|c0 [|c1 [|c2 [|c3 rest]]]]; try reflexivity; [inversion Hin|].
    cbn [base64.decode_quanta length] in *.
    rewrite !elem_of_cons in Hin.
    destruct (base64.decodeMap enc c0) as [s0|] eqn:H0; [|reflexivity].
    cbn [mbind option_bind].
    destruct (base64.decodeMap enc c1) as [s1|] eqn:H1; [|reflexivity].
    cbn [mbind option_bind].
    destruct Hin as [->|[->|Hin]]; [congruence|congruence|].
    destruct (base64.decodeMap enc c2) as [s2|] eqn:H2.
    + destruct Hin as [->|Hin]; [congruence|].
      destruct (base64.decodeMap enc c3) as [s3|] eqn:H3.
      * destruct Hin as [->|Hin]; [congruence|].
        rewrite (IH rest) by (lia || exact Hin). reflexivity.
      * destruct Hin as [->|Hin]; [rewrite Hp; reflexivity|].
        rewrite bool_decide_eq_false_2, andb_false_r; [reflexivity|].
        intros ->. inversion Hin.
    + destruct Hin as [->|[->|Hin]].
      * rewrite Hp. reflexivity.
      * rewrite Hp, andb_false_r. reflexivity.
      * rewrite bool_decide_eq_false_2, andb_false_r; [reflexivity|].
        intros ->. inversion Hin.
Qed.

(** Where the standard encoding has a [+] or a [/], the URL encoding has
    a [-] or a [_]. *)
Lemma Encode_URL_marks (l : list byte) :
  "+"%char ∈ base64.Encode base64.StdEncoding l
  \/ "/"%char ∈ base64.Encode base64.StdEncoding l ->
  "-"%char ∈ base64.Encode base64.URLEncoding l
  \/ "_"%char ∈ base64.Encode base64.URLEncoding l.
Proof.
  assert (Hat : forall i, 0 <= i < 64 ->
            "+"%char = base64.encode_at base64.StdEncoding i
            \/ "/"%char = base64.encode_at base64.StdEncoding i ->
            "-"%char = base64.encode_at base64.URLEncoding i
            \/ "_"%char = base64.encode_at base64.URLEncoding i).
  { intros i Hi.
    apply (below64 (fun i =>
      let c := base64.encode_at base64.StdEncoding i in
      let d := base64.encode_at base64.URLEncoding i in
      (negb (Ascii.eqb "+"%char c) || Ascii.eqb "-"%char d)
      && (negb (Ascii.eqb "/"%char c) || Ascii.eqb "_"%char d)))
      in Hi; [|vm_compute; reflexivity].
    cbv zeta in Hi. apply andb_true_iff in Hi as [Hplus Hslash].
    intros [Hc|Hc].
    - left. rewrite <- Hc, Ascii.eqb_refl in Hplus. cbn in Hplus.
      apply Ascii.eqb_eq, Hplus.
    - right. rewrite <- Hc, Ascii.eqb_refl in Hslash. cbn in Hslash.
      apply Ascii.eqb_eq, Hslash. }
  induction l as [|b0|b0 b1|b0 b1 b2 l IH] using list_ind3;
    cbn [base64.Encode]; unfold base64.pad; cbn [base64.padChar
      base64.StdEncoding base64.URLEncoding repeat];
    rewrite ?elem_of_cons, ?elem_of_nil; intros Hin;
    repeat match goal with
    | H : _ \/ _ |- _ => destruct H
    | H : False |- _ => destruct H
    | H : _ = base64.StdPadding |- _ => discriminate H
    | H : _ = base64.encode_at _ ?i |- _ =>
        first [ apply (fun h => Hat i (sextet_range _) (or_introl h)) in H
              | apply (fun h => Hat i (sextet_range _) (or_intror h)) in H ]
    end;
    try tauto;
    try (destruct IH as [?|?]; [auto|tauto|tauto]).
Qed.

Section PasteboardWrappers.

Context `{UrlLib}.

Lemma SetPasteboard_last_body (s : Session) (contentType : WDAContentType)
    (encodedContent : string) (w : World) :
  last_body (snd (SetPasteboard s contentType encodedContent w))
  = Some (<["content" := VString encodedContent]>
            (<["contentType" := VString contentType]> ∅)).
Proof.
  rewrite SetPasteboard_run. cbn [snd]. apply last_body_after.
Qed.

(** X14. [SetPasteboardForUrl] sends the content type [url] and a content that
    URL-safe base64 decoding turns back into the input. *)
Theorem SetPasteboardForUrl_roundtrip (s : Session) (url : string) (w : World) :
  exists (b : wdaBody) (encoded : string),
    last_body (snd (SetPasteboardForUrl s url w)) = Some b
    /\ b !! "contentType" = Some (VString "url")
    /\ b !! "content" = Some (VString encoded)
    /\ string_of <$> base64.DecodeString base64.URLEncoding encoded = Some url.
Proof.
  eexists. eexists. split; [apply SetPasteboard_last_body|].
  split; [reflexivity|]. split; [apply lookup_insert_eq|].
  rewrite URLEncoding_roundtrip. cbn [fmap option_fmap option_map].
  f_equal. apply string_of_list_ascii_of_string.
Qed.

(** X15. [SetPasteboardForImage] on a file that opens and reads sends the
    content type [image] and a content that standard base64 decoding turns
    back into the bytes of the file, and returns the error of the
    transport. *)
Theorem SetPasteboardForImage_roundtrip (s : Session) (filename : string)
    (data : list byte) (w : World) :
  files w filename = Some (data, None) ->
  exists (b : wdaBody) (encoded : string),
    last_body (snd (SetPasteboardForImage s filename w)) = Some b
    /\ b !! "contentType" = Some (VString "image")
    /\ b !! "content" = Some (VString encoded)
    /\ base64.DecodeString base64.StdEncoding encoded = Some data
    /\ fst (SetPasteboardForImage s filename w)
       = snd (respond w (mkRequest POST "SetPasteboard"
                           (urlJoin (sessionURL s) ["/wda/setPasteboard"]) (Some b))).
Proof.
  intros Hfile. rewrite SetPasteboardForImage_run, Hfile. cbv zeta. cbn [fst snd].
  eexists. eexists. split.
  - unfold last_body, sent. cbn [trace]. rewrite omap_app. cbn [omap list_omap].
    rewrite last_snoc. reflexivity.
  - split; [reflexivity|]. split; [apply lookup_insert_eq|].
    split; [apply StdEncoding_roundtrip|reflexivity].
Qed.

(** X16. Where the standard encoding of the input has a [+] or a [/], the
    payload that [SetPasteboardForUrl] sends is refused by standard base64
    decoding. *)
Theorem SetPasteboardForUrl_not_standard (s : Session) (url : string) (w : World) :
  "+"%char ∈ bytes (base64.EncodeToString base64.StdEncoding (bytes url))
  \/ "/"%char ∈ bytes (base64.EncodeToString base64.StdEncoding (bytes url)) ->
  exists encoded,
    last_content (snd (SetPasteboardForUrl s url w)) = Some (VString encoded)
    /\ base64.DecodeString base64.StdEncoding encoded = None.
Proof.
  rewrite bytes_EncodeToString. intros Hin. apply Encode_URL_marks in Hin.
  eexists. split; [apply SetPasteboard_last_content|].
  unfold base64.DecodeString. rewrite bytes_EncodeToString.
  rewrite (Encode_no_newline base64.URLEncoding base64.StdPadding)
    by (reflexivity || apply URLEncoding_no_newline).
  destruct Hin as [Hin|Hin].
  - apply (decode_quanta_refuses base64.StdEncoding "-"%char
             (length (base64.Encode base64.URLEncoding (bytes url))));
      [reflexivity|reflexivity|lia|exact Hin].
  - apply (decode_quanta_refuses base64.StdEncoding "_"%char
             (length (base64.Encode base64.URLEncoding (bytes url))));
      [reflexivity|reflexivity|lia|exact Hin].
Qed.

End PasteboardWrappers.

(** ** Typed results: the documented payloads *)

Lemma string_of_bytes (x : string) : string_of (bytes x) = x.
Proof. apply string_of_list_ascii_of_string. Qed.

Section DocumentedPayloads.

Context `{UrlLib}.

(** X17. [WindowSize] on a payload [{width, height}] of number literals: the
    integers are returned without error; when the width is no integer
    literal, the call returns a type error together with a struct whose
    height is set all the same and whose width is left zero. *)
Theorem WindowSize_decodes (s : Session) (w : World) (wdaResp : wdaResponse)
    (raw width height : string) (h : Z) :
  respond w (mkRequest GET "WindowSize" (urlJoin (sessionURL s) ["/window/size"]) None)
  = (wdaResp, nil) ->
  jsontext.parse (gjson.String (getValue wdaResp))
  = Some (jsontext.Obj raw [("width", jsontext.Leaf width jsontext.TNumber);
                            ("height", jsontext.Leaf height jsontext.TNumber)]) ->
  json.ParseInt (bytes height) = Some h ->
  (forall n, json.ParseInt (bytes width) = Some n ->
     fst (WindowSize s w) = (WDASize.mk n h (gjson.String (getValue wdaResp)), nil))
  /\ (json.ParseInt (bytes width) = None ->
      fst (WindowSize s w)
      = (WDASize.mk 0 h (gjson.String (getValue wdaResp)),
         Some (json.UnmarshalTypeError ("number " +:+ width)))).
Proof.
  intros Hresp Hparse Hh.
  rewrite (WindowSize_run s w wdaResp Hresp). unfold json.Unmarshal.
  rewrite string_of_bytes, Hparse.
  cbn [json.struct_ json.object fold_left fst snd].
  change (json.field_of WDASize.fields "width")
    with (Some (json.mkField "width" (json.int_field (fun x v =>
            WDASize.mk x (WDASize.Height v) (WDASize._string v))))).
  change (json.field_of WDASize.fields "height")
    with (Some (json.mkField "height" (json.int_field (fun x v =>
            WDASize.mk (WDASize.Width v) x (WDASize._string v))))).
  cbn [json.store json.int_field fst snd].
  split.
  - intros n Hn. rewrite Hn. cbn [fst snd]. rewrite Hh. reflexivity.
  - intros Hn. rewrite Hn. cbn [fst snd]. rewrite Hh. reflexivity.
Qed.



End DocumentedPayloads.

(** ** The list of active applications *)

Lemma slice_fold {T} (zero : T) (fields : list (json.Field T))
    (es : list jsontext.Tree) (l : list T) (e : error) :
  fst (fold_left (fun acc el =>
                    let '(x, e) := json.struct_ fields el zero in
                    (fst acc ++ [x], json.saveError (snd acc) e)) es (l, e))
  = l ++ map (fun el => fst (json.struct_ fields el zero)) es.
Proof.
  revert l e. induction es as [|el es IH]; intros l e; cbn [fold_left map fst snd].
  - rewrite app_nil_r. reflexivity.
  - destruct (json.struct_ fields el zero) as [x e'] eqn:Hx.
    rewrite IH, <- app_assoc. reflexivity.
Qed.

Section AppsList.

Context `{UrlLib}.

Variable T : Type.
Variable T_zero : T.
Variable T_fields : list (json.Field T).

(** X19. [ActiveAppsList] on a response whose value is an array: the list has
    one entry for each element of the array, in order, each decoded from
    the zero value, also for an element that does not decode; for the
    empty array the call returns the empty list (not the nil one) and no
    error. *)
Theorem ActiveAppsList_array (s : Session) (w : World) (wdaResp : wdaResponse)
    (raw : string) (es : list jsontext.Tree) :
  respond w (mkRequest GET "ActiveAppsList" (urlJoin (sessionURL s) ["/wda/apps/list"]) None)
  = (wdaResp, nil) ->
  jsontext.parse (gjson.String (getValue wdaResp)) = Some (jsontext.Arr raw es) ->
  exists apps,
    fst (fst (ActiveAppsList T T_zero T_fields s w)) = Some apps
    /\ length apps = length es
    /\ (forall i el, es !! i = Some el ->
        apps !! i = Some (fst (json.struct_ T_fields el T_zero)))
    /\ (es = [] -> fst (ActiveAppsList T T_zero T_fields s w) = (Some [], nil)).
Proof.
  intros Hresp Hparse. unfold ActiveAppsList. rewrite get_then_decode, Hresp.
  cbn [fst snd]. unfold Unmarshal_slice. rewrite string_of_bytes, Hparse.
  cbn [slice_value].
  pose proof (slice_fold T_zero T_fields es [] nil) as Hfold.
  match goal with
  | |- context [fold_left ?f es ?a] =>
      change (fst (fold_left f es a) = [] ++ map (fun el => fst (json.struct_ T_fields el T_zero)) es) in Hfold;
      destruct (fold_left f es a) as [l e] eqn:Hl
  end. cbn [fst] in *.
  rewrite app_nil_l in Hfold. subst l.
  eexists. split; [reflexivity|]. split; [apply length_map|]. split.
  - intros i el Hi. rewrite lookup_map, Hi. reflexivity.
  - intros ->. cbn [fold_left] in Hl. injection Hl as <-. reflexivity.
Qed.

End AppsList.

(** ** The properties above on the mock server *)

Lemma FindElement_outcomes_witness :
  let w := mockServer (valueOf "{'ELEMENT':'A-1'}") in
  let wdaResp := fst (valueOf "{'ELEMENT':'A-1'}") in
  let elementID := gjson.String (gjson.Get (getValue wdaResp) "ELEMENT") in
  (forall e, nil = Some e ->
     fst (@FindElement TextUrl mockSession "accessibility id" "Done" w)
     = (@mkElement TextUrl None, Some e))
  /\ (nil = nil -> elementID = "" ->
      fst (@FindElement TextUrl mockSession "accessibility id" "Done" w)
      = (@mkElement TextUrl None, Some ErrNoSuchElement))
  /\ (nil = nil -> elementID <> "" ->
      fst (@FindElement TextUrl mockSession "accessibility id" "Done" w)
      = (@mkElement TextUrl
           (fst (@url_Parse TextUrl
                   (@urlJoin TextUrl (@sessionURL TextUrl mockSession)
                      ["element"; elementID]))), nil)
      /\ @under TextUrl (@sessionURL TextUrl mockSession)
           (fst (fst (@FindElement TextUrl mockSession "accessibility id" "Done" w)))).
Proof.
  cbv zeta.
  apply (@FindElement_outcomes TextUrl TextUrl_laws mockSession "accessibility id" "Done"
           (mockServer (valueOf "{'ELEMENT':'A-1'}"))).
  reflexivity.
Defined.

(** The handle of that answer, and the answer [{}]. *)
Example FindElement_one :
  fst (@FindElement TextUrl mockSession "accessibility id" "Done"
         (mockServer (valueOf "{'ELEMENT':'A-1'}")))
  = (@mkElement TextUrl (Some "http://localhost:8100/session/8BF16568/element/A-1"), nil)
  /\ fst (@FindElement TextUrl mockSession "accessibility id" "Done"
            (mockServer (valueOf "{}")))
     = (@mkElement TextUrl None, Some ErrNoSuchElement).
Proof. split; vm_compute; reflexivity. Qed.

Lemma FindElements_no_array_witness :
  let w := mockServer (valueOf "{'ELEMENT':'A-1'}") in
  let wdaResp := fst (valueOf "{'ELEMENT':'A-1'}") in
  (forall e, nil = Some e ->
     fst (@FindElements TextUrl mockSession "class name" "Button" w) = (None, Some e))
  /\ (nil = nil ->
      getValue wdaResp = None
      \/ (exists raw, getValue wdaResp = Some (jsontext.Leaf raw jsontext.TNull)) ->
      fst (@FindElements TextUrl mockSession "class name" "Button" w)
      = (None, Some ErrNoSuchElement))
  /\ (forall raw ms, nil = nil -> getValue wdaResp = Some (jsontext.Obj raw ms) ->
      fst (@FindElements TextUrl mockSession "class name" "Button" w)
      = (Some [@mkElement TextUrl
                 (fst (@url_Parse TextUrl
                         (@urlJoin TextUrl (@sessionURL TextUrl mockSession)
                            ["element"; gjson.String (gjson.member "ELEMENT" ms)])))],
         nil))
  /\ (forall raw tok, nil = nil -> getValue wdaResp = Some (jsontext.Leaf raw tok) ->
      tok <> jsontext.TNull ->
      fst (@FindElements TextUrl mockSession "class name" "Button" w)
      = (Some [@mkElement TextUrl
                 (fst (@url_Parse TextUrl
                         (@urlJoin TextUrl (@sessionURL TextUrl mockSession)
                            ["element"; ""])))], nil)).
Proof.
  cbv zeta.
  apply (@FindElements_no_array TextUrl mockSession "class name" "Button"
           (mockServer (valueOf "{'ELEMENT':'A-1'}"))).
  reflexivity.
Defined.

(** A single object instead of an array, and the scalar [true]. *)
Example FindElements_single_values :
  fst (@FindElements TextUrl mockSession "class name" "Button"
         (mockServer (valueOf "{'ELEMENT':'A-1'}")))
  = (Some [@mkElement TextUrl (Some "http://localhost:8100/session/8BF16568/element/A-1")],
     nil)
  /\ fst (@FindElements TextUrl mockSession "class name" "Button"
            (mockServer (valueOf "true")))
     = (Some [@mkElement TextUrl (Some "http://localhost:8100/session/8BF16568/element/")],
        nil).
Proof. split; vm_compute; reflexivity. Qed.

Lemma FindElements_order_witness :
  exists elements,
    fst (@FindElements TextUrl mockSession "class name" "Button"
           (mockServer (valueOf "[{'ELEMENT':'A-1'},{'ELEMENT':'B-2'}]")))
    = (Some elements, nil)
    /\ elements !! 1%nat
       = Some (@mkElement TextUrl
                 (fst (@url_Parse TextUrl
                         (@urlJoin TextUrl (@sessionURL TextUrl mockSession)
                            ["element";
                             gjson.String
                               (gjson.Get (gjson.Parse (dq "{'ELEMENT':'B-2'}"))
                                  "ELEMENT")])))).
Proof.
  eapply (@FindElements_order TextUrl mockSession "class name" "Button"
            (mockServer (valueOf "[{'ELEMENT':'A-1'},{'ELEMENT':'B-2'}]"))
            (fst (valueOf "[{'ELEMENT':'A-1'},{'ELEMENT':'B-2'}]"))).
  - reflexivity.
  - vm_compute. reflexivity.
  - vm_compute. reflexivity.
Defined.

Lemma SetPasteboardForImage_roundtrip_witness :
  let fs := fun name =>
    if String.eqb name "icon.png" then Some (bytes "PNG", None) else None in
  let w := mockFiles (valueOf "null") fs in
  exists (b : wdaBody) (encoded : string),
    last_body (snd (@SetPasteboardForImage TextUrl mockSession "icon.png" w)) = Some b
    /\ b !! "contentType" = Some (VString "image")
    /\ b !! "content" = Some (VString encoded)
    /\ base64.DecodeString base64.StdEncoding encoded = Some (bytes "PNG")
    /\ fst (@SetPasteboardForImage TextUrl mockSession "icon.png" w)
       = snd (respond w (mkRequest POST "SetPasteboard"
                           (@urlJoin TextUrl (@sessionURL TextUrl mockSession)
                              ["/wda/setPasteboard"]) (Some b))).
Proof.
  cbv zeta.
  apply (@SetPasteboardForImage_roundtrip TextUrl mockSession "icon.png" (bytes "PNG")).
  reflexivity.
Defined.

Lemma SetPasteboardForUrl_not_standard_witness :
  exists encoded,
    last_content (snd (@SetPasteboardForUrl TextUrl mockSession "a?>"
                         (mockServer (valueOf "null"))))
    = Some (VString encoded)
    /\ base64.DecodeString base64.StdEncoding encoded = None.
Proof.
  apply (@SetPasteboardForUrl_not_standard TextUrl mockSession "a?>").
  left. vm_compute. apply list_elem_of_In. cbn. tauto.
Defined.

Lemma WindowSize_decodes_witness :
  let answer := valueOf "{'width':812,'height':375}" in
  (forall n, json.ParseInt (bytes "812") = Some n ->
     fst (@WindowSize TextUrl mockSession (mockServer answer))
     = (WDASize.mk n 375 (gjson.String (getValue (fst answer))), nil))
  /\ (json.ParseInt (bytes "812") = None ->
      fst (@WindowSize TextUrl mockSession (mockServer answer))
      = (WDASize.mk 0 375 (gjson.String (getValue (fst answer))),
         Some (json.UnmarshalTypeError ("number " +:+ "812")))).
Proof.
  cbv zeta.
  eapply (@WindowSize_decodes TextUrl mockSession
            (mockServer (valueOf "{'width':812,'height':375}"))
            (fst (valueOf "{'width':812,'height':375}"))).
  - reflexivity.
  - vm_compute. reflexivity.
  - vm_compute. reflexivity.
Defined.

(** A width that is no integer: the error comes with the height set. *)
Example WindowSize_partial :
  fst (@WindowSize TextUrl mockSession (mockServer (valueOf "{'width':812.5,'height':375}")))
  = (WDASize.mk 0 375 (dq "{'width':812.5,'height':375}"),
     Some (json.UnmarshalTypeError "number 812.5")).
Proof. vm_compute. reflexivity. Qed.


Lemma ActiveAppsList_array_witness :
  let text := "[{'pid':3573,'bundleId':'com.apple.DocumentsApp'},{'pid':'x','bundleId':'com.apple.reminders'}]" in
  let es := match jsontext.parse (dq text) with
            | Some (jsontext.Arr _ es) => es
            | _ => []
            end in
  exists apps,
    fst (fst (@ActiveAppsList TextUrl WDAAppBaseInfo.t WDAAppBaseInfo.zero
                WDAAppBaseInfo.fields mockSession (mockServer (valueOf text))))
    = Some apps
    /\ length apps = length es
    /\ (forall i el, es !! i = Some el ->
        apps !! i = Some (fst (json.struct_ WDAAppBaseInfo.fields el WDAAppBaseInfo.zero)))
    /\ (es = [] ->
        fst (@ActiveAppsList TextUrl WDAAppBaseInfo.t WDAAppBaseInfo.zero
               WDAAppBaseInfo.fields mockSession (mockServer (valueOf text)))
        = (Some [], nil)).
Proof.
  cbv zeta.
  eapply (@ActiveAppsList_array TextUrl WDAAppBaseInfo.t WDAAppBaseInfo.zero
            WDAAppBaseInfo.fields mockSession
            (mockServer (valueOf "[{'pid':3573,'bundleId':'com.apple.DocumentsApp'},{'pid':'x','bundleId':'com.apple.reminders'}]"))
            (fst (valueOf "[{'pid':3573,'bundleId':'com.apple.DocumentsApp'},{'pid':'x','bundleId':'com.apple.reminders'}]"))).
  - reflexivity.
  - vm_compute. reflexivity.
Defined.

(** Two applications, the second with a [pid] that is no number: both are
    listed, the second with the zero [pid], and the type error is
    returned. *)
Example ActiveAppsList_two :
  fst (@ActiveAppsList TextUrl WDAAppBaseInfo.t WDAAppBaseInfo.zero WDAAppBaseInfo.fields
         mockSession
         (mockServer (valueOf "[{'pid':3573,'bundleId':'com.apple.DocumentsApp'},{'pid':'x','bundleId':'com.apple.reminders'}]")))
  = (Some [WDAAppBaseInfo.mk 3573 "com.apple.DocumentsApp";
           WDAAppBaseInfo.mk 0 "com.apple.reminders"],
     Some (json.UnmarshalTypeError "string")).
Proof. vm_compute. reflexivity. Qed.

Lemma decoders_transport_failure_witness :
  let e := TransportError "connection refused" in
  let w := mockServer (mkResponse None "", Some e) in
  fst (@GetActiveSession TextUrl mockSession w) = (WDASessionInfo.zero, Some e)
  /\ fst (@DeviceInfo TextUrl mockSession w) = (WDADeviceInfo.zero, Some e)
  /\ fst (@BatteryInfo TextUrl mockSession w) = (WDABatteryInfo.zero, Some e)
  /\ fst (@WindowSize TextUrl mockSession w) = (WDASize.zero, Some e)
  /\ (fst (@Screen TextUrl mockSession w) = (WDAScreen.zero, Some e)
      /\ fst (@Scale TextUrl mockSession w) = (WDAScreen.Scale WDAScreen.zero, Some e)
      /\ fst (@StatusBarSize TextUrl mockSession w) = (WDASize.zero, Some e))
  /\ fst (@ActiveAppsList TextUrl WDAAppBaseInfo.t WDAAppBaseInfo.zero
            WDAAppBaseInfo.fields mockSession w) = (None, Some e)
  /\ fst (@GetAppiumSettings TextUrl mockSession w) = ("", Some e).
Proof.
  cbv zeta.
  destruct (@decoders_transport_failure TextUrl WDAAppBaseInfo.t WDAAppBaseInfo.zero
              WDAAppBaseInfo.fields mockSession
              (mockServer (mkResponse None "", Some (TransportError "connection refused")))
              (TransportError "connection refused"))
    as (H1 & H2 & H3 & H4 & H5 & H6 & H7).
  split; [apply H1; reflexivity|].
  split; [apply H2; reflexivity|].
  split; [apply H3; reflexivity|].
  split; [apply H4; reflexivity|].
  split; [apply H5; reflexivity|].
  split; [apply H6; reflexivity|].
  apply H7; reflexivity.
Defined.

Lemma decoders_absent_value_witness :
  let w := mockServer (valueOf "null") in
  fst (@GetActiveSession TextUrl mockSession w) = (WDASessionInfo.zero, Some json.SyntaxError)
  /\ fst (@DeviceInfo TextUrl mockSession w) = (WDADeviceInfo.zero, Some json.SyntaxError)
  /\ fst (@BatteryInfo TextUrl mockSession w) = (WDABatteryInfo.zero, Some json.SyntaxError)
  /\ fst (@WindowSize TextUrl mockSession w) = (WDASize.zero, Some json.SyntaxError)
  /\ fst (@Screen TextUrl mockSession w) = (WDAScreen.zero, Some json.SyntaxError)
  /\ fst (@ActiveAppsList TextUrl WDAAppBaseInfo.t WDAAppBaseInfo.zero
            WDAAppBaseInfo.fields mockSession w) = (Some [], Some json.SyntaxError)
  /\ fst (@GetAppiumSettings TextUrl mockSession w) = ("", nil).
Proof.
  cbv zeta.
  assert (Hnull : getValue (fst (valueOf "null")) = None
                  \/ (exists raw, getValue (fst (valueOf "null"))
                                  = Some (jsontext.Leaf raw jsontext.TNull)))
    by (right; eexists; vm_compute; reflexivity).
  destruct (@decoders_absent_value TextUrl WDAAppBaseInfo.t WDAAppBaseInfo.zero
              WDAAppBaseInfo.fields mockSession (mockServer (valueOf "null")))
    as (H1 & H2 & H3 & H4 & H5 & H6 & H7).
  split; [apply (H1 _ eq_refl Hnull)|].
  split; [apply (H2 _ eq_refl Hnull)|].
  split; [apply (H3 _ eq_refl Hnull)|].
  split; [apply (H4 _ eq_refl Hnull)|].
  split; [apply (H5 _ eq_refl Hnull)|].
  split; [apply (H6 _ eq_refl Hnull)|].
  apply (H7 _ eq_refl Hnull).
Defined.
